(** * Indian stock market data downloader: a shallow embedding

    Source: [downloadfullfinancedata.py], class [StockDataDownloader] and the
    [__main__] guard.

    The program is sequential Python that talks to three collaborators: the
    quote provider ([yf.download]), the remote constituent list
    ([pd.read_csv]) and the file system ([os.makedirs], [DataFrame.to_csv]).
    The collaborators are an environment record of oracles; the program is a
    state-and-exception monad over a [World] that holds the files written,
    the number of provider requests issued and the chronological trace of
    observable events (log records, requests, writes, sleeps). *)

From Stdlib Require Import ZArith String Ascii List Lia.
From stdpp Require Import base option list gmap strings.

Open Scope string_scope.
Open Scope Z_scope.
Open Scope list_scope.

(** ** Python strings *)

Module PyStr.

(** [s.replace(old, new)] scans [s] from the left and substitutes every
    non-overlapping occurrence of [old].  [skip] counts the characters of a
    matched occurrence that are still to be dropped. *)
Fixpoint replace_from (old new : string) (skip : nat) (s : string) : string :=
  match s with
  | EmptyString => EmptyString
  | String c rest =>
      match skip with
      | S k => replace_from old new k rest
      | O =>
          if String.prefix old s
          then String.append new
                 (replace_from old new (Nat.pred (String.length old)) rest)
          else String c (replace_from old new O rest)
      end
  end.

(** With an empty [old], Python inserts [new] before every character and at
    the end. *)
Fixpoint intersperse_all (new s : string) : string :=
  match s with
  | EmptyString => new
  | String c rest => String.append new (String c (intersperse_all new rest))
  end.

Definition replace (old new s : string) : string :=
  match old with
  | EmptyString => intersperse_all new s
  | String _ _ => replace_from old new O s
  end.

(** [s.endswith(suffix)] *)
Definition endswith (s suffix : string) : bool :=
  let n := String.length s in
  let m := String.length suffix in
  if (m <=? n)%nat
  then String.eqb (String.substring (n - m) m s) suffix
  else false.

Definition startswith (s p : string) : bool := String.prefix p s.

(** [c in s] for a single character. *)
Fixpoint contains_char (c : ascii) (s : string) : bool :=
  match s with
  | EmptyString => false
  | String d rest => Ascii.eqb c d || contains_char c rest
  end.

End PyStr.

(** ** Symbol catalogue *)

(** [_get_fallback_nifty50] *)
Definition _get_fallback_nifty50 : list string :=
  [ "ADANIPORTS.NS"; "ASIANPAINT.NS"; "AXISBANK.NS"; "BAJAJ-AUTO.NS";
    "BAJFINANCE.NS"; "BAJAJFINSV.NS"; "BPCL.NS"; "BHARTIARTL.NS";
    "CIPLA.NS"; "COALINDIA.NS"; "DRREDDY.NS"; "EICHERMOT.NS";
    "GRASIM.NS"; "HCLTECH.NS"; "HDFCBANK.NS"; "HDFCLIFE.NS";
    "HEROMOTOCO.NS"; "HINDALCO.NS"; "HINDUNILVR.NS"; "ICICIBANK.NS";
    "INDUSINDBK.NS"; "INFY.NS"; "ITC.NS"; "JSWSTEEL.NS";
    "KOTAKBANK.NS"; "LT.NS"; "M&M.NS"; "MARUTI.NS"; "NESTLEIND.NS";
    "NTPC.NS"; "ONGC.NS"; "POWERGRID.NS"; "RELIANCE.NS"; "SBIN.NS";
    "SUNPHARMA.NS"; "TATAMOTORS.NS"; "TATASTEEL.NS"; "TCS.NS";
    "TECHM.NS"; "TITAN.NS"; "ULTRACEMCO.NS"; "WIPRO.NS";
    "ADANIENT.NS"; "APOLLOHOSP.NS"; "BRITANNIA.NS"; "DIVISLAB.NS";
    "HDFCLIFE.NS"; "LTIM.NS"; "SBILIFE.NS"; "TATACONSUM.NS" ].

(** The constituent list of [get_sensex30_stocks]. *)
Definition sensex_constituents : list string :=
  [ "RELIANCE.BO"; "TCS.BO"; "HDFCBANK.BO"; "INFY.BO"; "ICICIBANK.BO";
    "HINDUNILVR.BO"; "ITC.BO"; "SBIN.BO"; "BHARTIARTL.BO"; "BAJFINANCE.BO";
    "KOTAKBANK.BO"; "LT.BO"; "AXISBANK.BO"; "ASIANPAINT.BO"; "MARUTI.BO";
    "SUNPHARMA.BO"; "TITAN.BO"; "ULTRACEMCO.BO"; "NESTLEIND.BO";
    "TATAMOTORS.BO"; "M&M.BO"; "HCLTECH.BO"; "POWERGRID.BO"; "NTPC.BO";
    "WIPRO.BO"; "TATASTEEL.BO"; "BAJAJFINSV.BO"; "TECHM.BO";
    "INDUSINDBK.BO"; "JSWSTEEL.BO" ].

(** [indices_config] of [download_market_indices]; a Python dict iterates in
    insertion order, so the association list keeps the order of the literal. *)
Definition indices_config : list (string * string) :=
  [ ("^NSEI", "NIFTY50"); ("^BSESN", "SENSEX"); ("^NSEBANK", "BANKNIFTY") ].

(** The filename stem of [download_single_stock]:
    [symbol.replace('.NS', '').replace('.BO', '')]. *)
Definition clean_symbol (symbol : string) : string :=
  PyStr.replace ".BO" EmptyString (PyStr.replace ".NS" EmptyString symbol).

(** What the comment next to it announces ("remove exchange suffix"): drop
    [suffix] when the symbol ends with it, touch nothing else. *)
Definition remove_exchange_suffix (suffix symbol : string) : string :=
  if PyStr.endswith symbol suffix
  then String.substring 0 (String.length symbol - String.length suffix) symbol
  else symbol.

(** ** Python values the program handles *)

(** The three places of the exception hierarchy that the handlers of the
    program tell apart: [except Exception] catches the first only,
    [except KeyboardInterrupt] the second only, nothing catches the third
    (a [BaseException] outside both subtrees).  [msg] is [str(e)]. *)
Inductive py_exn : Type :=
| Exception (msg : string)
| KeyboardInterrupt
| BaseException (msg : string).

Inductive outcome (A : Type) : Type :=
| Ret (a : A)
| Raise (e : py_exn).
Arguments Ret {A} a.
Arguments Raise {A} e.

Definition is_Exception (e : py_exn) : bool :=
  match e with Exception _ => true | _ => false end.

(** A call outcome that is a value or an [Exception]: nothing that escapes an
    [except Exception] handler. *)
Definition catchable {A : Type} (r : outcome A) : Prop :=
  match r with
  | Ret _ => True
  | Raise e => is_Exception e = true
  end.

(** A [pandas.DataFrame], column-major: the row labels (dates) and, per
    column, its name and its cells as they print. *)
Record DataFrame : Type := mkDataFrame {
  df_index : list string;
  df_columns : list (string * list string)
}.

(** [df.empty]: some axis has length zero. *)
Definition df_empty (df : DataFrame) : bool :=
  (length (df_index df) =? 0)%nat || (length (df_columns df) =? 0)%nat.

(** [len(df)] *)
Definition df_len (df : DataFrame) : Z := Z.of_nat (length (df_index df)).

(** [df[col].tolist()]; a missing column is a [KeyError]. *)
Fixpoint column_lookup (col : string) (cols : list (string * list string))
  : option (list string) :=
  match cols with
  | [] => None
  | (name, cells) :: rest =>
      if String.eqb name col then Some cells else column_lookup col rest
  end.

Definition df_getitem_tolist (df : DataFrame) (col : string) : outcome (list string) :=
  match column_lookup col (df_columns df) with
  | Some cells => Ret cells
  | None => Raise (Exception (String.append "KeyError: " col))
  end.

(** [datetime] and [timedelta] as microsecond counts; a [datetime] counts
    from [datetime.min] (0001-01-01T00:00:00). *)
Module Datetime.

Definition us_per_day : Z := 86400000000.

(** [datetime.max - datetime.min], in microseconds
    ([date.max.toordinal() = 3652059]). *)
Definition max_us : Z := 3652059 * us_per_day - 1.

Definition max_delta_days : Z := 999999999.

Definition in_range (dt : Z) : bool := (0 <=? dt) && (dt <=? max_us).

(** [timedelta(days=d)] *)
Definition timedelta_days (d : Z) : outcome Z :=
  if Z.abs d <=? max_delta_days
  then Ret (d * us_per_day)
  else Raise (Exception "OverflowError: days must have magnitude <= 999999999").

(** [dt - td] for a [datetime] and a [timedelta] *)
Definition sub (dt td : Z) : outcome Z :=
  if in_range (dt - td)
  then Ret (dt - td)
  else Raise (Exception "OverflowError: date value out of range").

End Datetime.

(** [os.path.join(a, b)] of [posixpath]. *)
Definition path_join (a b : string) : string :=
  if PyStr.startswith b "/" then b
  else if (String.length a =? 0)%nat || PyStr.endswith a "/" then String.append a b
  else String.append a (String.append "/" b).

(** The values stored in the [stats] dict. *)
Inductive py_value : Type :=
| VInt (n : Z)
| VDatetime (dt : Z).

(** ** The outside world *)

Inductive log_level : Type := INFO | WARNING | ERROR.

(** The pieces of an f-string: literal text and the formatted fields. *)
Inductive fpart : Type :=
| Lit (s : string)
| FStr (s : string)
| FInt (n : Z)
| FDate (dt : Z)
| FAbsPath (path : string).

Inductive event : Type :=
| Log (level : log_level) (msg : list fpart) (exc_info : bool)
| MakeDirs (path : string)
| HttpGet (url : string)
| Request (symbol : string) (start_date end_date : Z) (auto_adjust : option bool)
| WriteFile (path : string)
| Sleep (ms : Z).

(** What the collaborators answer.  [yf_download n] is the answer to the
    request issued after [n] earlier ones, so that a provider may answer the
    same symbol differently over time. *)
Record Env : Type := mkEnv {
  now : Z;
  makedirs : string -> outcome unit;
  read_csv : string -> outcome DataFrame;
  yf_download : nat -> string -> Z -> Z -> option bool -> outcome DataFrame;
  to_csv : string -> DataFrame -> outcome unit
}.

Record World : Type := mkWorld {
  files : gmap string DataFrame;
  requests : nat;
  trace : list event
}.

Definition emit (ev : event) (w : World) : World :=
  mkWorld (files w) (requests w) (trace w ++ [ev]).

(** ** The monad of the program: state and exceptions *)

Definition M (A : Type) : Type := World -> outcome A * World.

Definition ret {A : Type} (a : A) : M A := fun w => (Ret a, w).

Definition raise {A : Type} (e : py_exn) : M A := fun w => (Raise e, w).

Definition bind {A B : Type} (m : M A) (k : A -> M B) : M B :=
  fun w =>
    match m w with
    | (Ret a, w') => k a w'
    | (Raise e, w') => (Raise e, w')
    end.

Definition lift {A : Type} (r : outcome A) : M A := fun w => (r, w).

(** [try: body  except Exception as e: handler(str(e))] *)
Definition try_except_Exception {A : Type} (body : M A) (handler : string -> M A) : M A :=
  fun w =>
    match body w with
    | (Raise (Exception msg), w') => handler msg w'
    | other => other
    end.

Notation "'do' x <~ m ;; k" := (bind m (fun x => k))
  (at level 10, x name, m at level 99, k at level 200,
   format "'[v' 'do'  x  <~  m  ;; '/' k ']'").
Notation "'run' m ;; k" := (bind m (fun _ => k))
  (at level 10, m at level 99, k at level 200,
   format "'[v' 'run'  m  ;; '/' k ']'").

Fixpoint for_each {A : Type} (body : A -> M unit) (l : list A) : M unit :=
  match l with
  | [] => ret tt
  | x :: rest => run body x ;; for_each body rest
  end.

(** [s * n] on strings *)
Fixpoint str_mul (s : string) (n : nat) : string :=
  match n with
  | O => EmptyString
  | S k => String.append s (str_mul s k)
  end.

Definition newline : string := String (ascii_of_nat 10) EmptyString.

Definition banner : string := str_mul "=" 70.

(** [self] of [StockDataDownloader] *)
Record StockDataDownloader : Type := mkDownloader {
  base_path : string;
  nifty_path : string;
  sensex_path : string
}.

Definition nse_url : string :=
  "https://www.nseindia.com/content/indices/ind_nifty50list.csv".

(** [d[key]] on the [stats] dict *)
Definition dict_get (d : gmap string py_value) (key : string) : M py_value :=
  match d !! key with
  | Some v => ret v
  | None => raise (Exception (String.append "KeyError: " key))
  end.

(** [v.date()] *)
Definition date_of (v : py_value) : M Z :=
  match v with
  | VDatetime dt => ret dt
  | VInt _ => raise (Exception "AttributeError: 'int' object has no attribute 'date'")
  end.

Definition fvalue (v : py_value) : fpart :=
  match v with
  | VInt n => FInt n
  | VDatetime dt => FDate dt
  end.

(** ** The program *)

Section Program.

Variable env : Env.

(** *** Calls into the collaborators *)

Definition logger (level : log_level) (msg : list fpart) : M unit :=
  fun w => (Ret tt, emit (Log level msg false) w).

(** [logger.error(msg, exc_info=True)] *)
Definition logger_exc_info (level : log_level) (msg : list fpart) : M unit :=
  fun w => (Ret tt, emit (Log level msg true) w).

Definition os_makedirs (path : string) : M unit :=
  fun w => (makedirs env path, emit (MakeDirs path) w).

Definition pd_read_csv (url : string) : M DataFrame :=
  fun w => (read_csv env url, emit (HttpGet url) w).

(** [yf.download(symbol, start=.., end=.., progress=False[, auto_adjust=..])] *)
Definition yf_download_call (symbol : string) (start_date end_date : Z)
    (auto_adjust : option bool) : M DataFrame :=
  fun w =>
    (yf_download env (requests w) symbol start_date end_date auto_adjust,
     mkWorld (files w) (S (requests w))
             (trace w ++ [Request symbol start_date end_date auto_adjust])).

(** [data.to_csv(filename)]: the file holds the frame once the call
    returns; a failing call leaves the store as it was. *)
Definition df_to_csv (data : DataFrame) (filename : string) : M unit :=
  fun w =>
    match to_csv env filename data with
    | Ret _ =>
        (Ret tt, mkWorld (<[filename := data]> (files w)) (requests w)
                         (trace w ++ [WriteFile filename]))
    | Raise e => (Raise e, w)
    end.

(** [time.sleep(seconds)], in milliseconds *)
Definition time_sleep (ms : Z) : M unit :=
  fun w => (Ret tt, emit (Sleep ms) w).

Definition datetime_now : M Z := ret (now env).

(** *** [StockDataDownloader] *)

Definition _setup_directories (self : StockDataDownloader) : M unit :=
  let directories := [base_path self; nifty_path self; sensex_path self] in
  run for_each os_makedirs directories ;;
  logger INFO [Lit "Directory structure initialized at: "; FStr (base_path self)].

Definition __init__ (base : string) : M StockDataDownloader :=
  let self := mkDownloader base (path_join base "nifty50") (path_join base "sensex30") in
  run _setup_directories self ;;
  ret self.

Definition get_nifty50_stocks (self : StockDataDownloader) : M (list string) :=
  try_except_Exception
    (do df <~ pd_read_csv nse_url ;;
     do column <~ lift (df_getitem_tolist df "Symbol") ;;
     let symbols := map (fun symbol => String.append symbol ".NS") column in
     run logger INFO [Lit "Successfully fetched "; FInt (Z.of_nat (length symbols));
                      Lit " Nifty 50 stocks from NSE"] ;;
     ret symbols)
    (fun e =>
       run logger WARNING [Lit "Failed to fetch live Nifty 50 list: "; FStr e;
                           Lit ". Using fallback list."] ;;
       ret _get_fallback_nifty50).

Definition get_sensex30_stocks (self : StockDataDownloader) : M (list string) :=
  run logger INFO [Lit "Loaded "; FInt (Z.of_nat (length sensex_constituents));
                   Lit " Sensex 30 stocks"] ;;
  ret sensex_constituents.

Definition download_single_stock (self : StockDataDownloader) (symbol : string)
    (start_date end_date : Z) (save_path : string) : M bool :=
  try_except_Exception
    (run logger INFO [Lit "Downloading data for "; FStr symbol] ;;
     do data <~ yf_download_call symbol start_date end_date (Some true) ;;
     if negb (df_empty data) then
       let filename := path_join save_path (String.append (clean_symbol symbol) ".csv") in
       run df_to_csv data filename ;;
       run logger INFO [Lit "Successfully saved: "; FStr filename; Lit " (";
                        FInt (df_len data); Lit " rows)"] ;;
       ret true
     else
       run logger WARNING [Lit "No data available for "; FStr symbol] ;;
       ret false)
    (fun e =>
       run logger ERROR [Lit "Failed to download "; FStr symbol; Lit ": "; FStr e] ;;
       ret false).

(** The body of the [for idx, stock in enumerate(stock_list, 1)] loop;
    [success_count] is the loop-carried variable. *)
Definition bulk_body (self : StockDataDownloader) (save_path : string)
    (start_date end_date : Z) (total_stocks : Z)
    (idx : Z) (stock : string) (success_count : Z) : M Z :=
  run logger INFO [Lit "Processing "; FInt idx; Lit "/"; FInt total_stocks;
                   Lit ": "; FStr stock] ;;
  do ok <~ download_single_stock self stock start_date end_date save_path ;;
  let success_count := if ok then success_count + 1 else success_count in
  run time_sleep 500 ;;
  ret success_count.

Fixpoint bulk_loop (self : StockDataDownloader) (save_path : string)
    (start_date end_date : Z) (total_stocks : Z)
    (idx : Z) (stocks : list string) (success_count : Z) : M Z :=
  match stocks with
  | [] => ret success_count
  | stock :: rest =>
      do success_count <~ bulk_body self save_path start_date end_date
                            total_stocks idx stock success_count ;;
      bulk_loop self save_path start_date end_date total_stocks (idx + 1) rest
                success_count
  end.

Definition bulk_download_stocks (self : StockDataDownloader) (stock_list : list string)
    (save_path : string) (start_date end_date : Z) : M (Z * Z) :=
  let success_count := 0 in
  let total_stocks := Z.of_nat (length stock_list) in
  run logger INFO [Lit "Starting bulk download of "; FInt total_stocks; Lit " stocks"] ;;
  do success_count <~ bulk_loop self save_path start_date end_date total_stocks
                        1 stock_list success_count ;;
  run logger INFO [Lit "Bulk download complete: "; FInt success_count; Lit "/";
                   FInt total_stocks; Lit " successful"] ;;
  ret (success_count, total_stocks).

(** The body of the [for symbol, name in indices_config.items()] loop. *)
Definition index_body (self : StockDataDownloader) (start_date end_date : Z)
    (entry : string * string) : M unit :=
  let symbol := fst entry in
  let name := snd entry in
  try_except_Exception
    (run logger INFO [Lit "Downloading "; FStr name; Lit " index data"] ;;
     do data <~ yf_download_call symbol start_date end_date None ;;
     if negb (df_empty data) then
       let filename := path_join (base_path self) (String.append name "_index.csv") in
       run df_to_csv data filename ;;
       logger INFO [Lit "Index saved: "; FStr filename; Lit " (";
                    FInt (df_len data); Lit " rows)"]
     else
       logger WARNING [Lit "No data available for "; FStr name])
    (fun e =>
       logger ERROR [Lit "Failed to download "; FStr name; Lit " index: "; FStr e]).

Definition download_market_indices (self : StockDataDownloader)
    (start_date end_date : Z) : M unit :=
  run logger INFO [Lit "Starting download of market indices"] ;;
  for_each (index_body self start_date end_date) indices_config.

(** The first two statements of [run_full_download]:
    [end_date = datetime.now()];
    [start_date = end_date - timedelta(days=years * 365)].
    Returns [(start_date, end_date)]. *)
Definition date_range (years : Z) : M (Z * Z) :=
  do end_date <~ datetime_now ;;
  do delta <~ lift (Datetime.timedelta_days (years * 365)) ;;
  do start_date <~ lift (Datetime.sub end_date delta) ;;
  ret (start_date, end_date).

Definition phase_banner (title : string) : M unit :=
  run logger INFO [Lit (String.append newline banner)] ;;
  run logger INFO [Lit title] ;;
  logger INFO [Lit banner].

Definition _print_summary (self : StockDataDownloader)
    (stats : gmap string py_value) : M unit :=
  run phase_banner "DOWNLOAD SUMMARY REPORT" ;;
  do sd <~ dict_get stats "start_date" ;;
  do sd <~ date_of sd ;;
  do ed <~ dict_get stats "end_date" ;;
  do ed <~ date_of ed ;;
  run logger INFO [Lit "Date Range: "; FDate sd; Lit " to "; FDate ed] ;;
  do n <~ dict_get stats "indices_downloaded" ;;
  run logger INFO [Lit "Indices Downloaded: "; fvalue n] ;;
  do s <~ dict_get stats "nifty_success" ;;
  do t <~ dict_get stats "nifty_total" ;;
  run logger INFO [Lit "Nifty 50: "; fvalue s; Lit "/"; fvalue t; Lit " stocks"] ;;
  do s <~ dict_get stats "sensex_success" ;;
  do t <~ dict_get stats "sensex_total" ;;
  run logger INFO [Lit "Sensex 30: "; fvalue s; Lit "/"; fvalue t; Lit " stocks"] ;;
  run logger INFO [Lit (String.append newline "Data Location:")] ;;
  run logger INFO [Lit "  - Indices: "; FStr (base_path self); Lit "/"] ;;
  run logger INFO [Lit "  - Nifty 50: "; FStr (nifty_path self); Lit "/"] ;;
  run logger INFO [Lit "  - Sensex 30: "; FStr (sensex_path self); Lit "/"] ;;
  logger INFO [Lit banner].

Definition run_full_download (self : StockDataDownloader) (years : Z)
  : M (gmap string py_value) :=
  do range <~ date_range years ;;
  let start_date := fst range in
  let end_date := snd range in
  run phase_banner "INDIAN STOCK MARKET DATA DOWNLOADER - FULL EXECUTION" ;;
  run logger INFO [Lit "Date range: "; FDate start_date; Lit " to "; FDate end_date] ;;
  run logger INFO [Lit "Data path: "; FAbsPath (base_path self)] ;;
  let stats : gmap string py_value :=
    <["sensex_total" := VInt 0]>
    (<["sensex_success" := VInt 0]>
    (<["nifty_total" := VInt 0]>
    (<["nifty_success" := VInt 0]>
    (<["indices_downloaded" := VInt 0]>
    (<["end_date" := VDatetime end_date]>
    (<["start_date" := VDatetime start_date]> ∅)))))) in
  run phase_banner "PHASE 1: Downloading Market Indices" ;;
  run download_market_indices self start_date end_date ;;
  let stats := <["indices_downloaded" := VInt 3]> stats in
  run phase_banner "PHASE 2: Downloading Nifty 50 Stocks" ;;
  do nifty_stocks <~ get_nifty50_stocks self ;;
  do nifty <~ bulk_download_stocks self nifty_stocks (nifty_path self)
                start_date end_date ;;
  let stats := <["nifty_success" := VInt (fst nifty)]> stats in
  let stats := <["nifty_total" := VInt (snd nifty)]> stats in
  run phase_banner "PHASE 3: Downloading Sensex 30 Stocks" ;;
  do sensex_stocks <~ get_sensex30_stocks self ;;
  do sensex <~ bulk_download_stocks self sensex_stocks (sensex_path self)
                 start_date end_date ;;
  let stats := <["sensex_success" := VInt (fst sensex)]> stats in
  let stats := <["sensex_total" := VInt (snd sensex)]> stats in
  run _print_summary self stats ;;
  ret stats.

Definition main : M (gmap string py_value) :=
  do downloader <~ __init__ "data" ;;
  do stats <~ run_full_download downloader 10 ;;
  ret stats.

(** The [if __name__ == "__main__"] block: [main()] under its two handlers. *)
Definition main_guard : M unit :=
  fun w =>
    match main w with
    | (Ret _, w') => (Ret tt, w')
    | (Raise KeyboardInterrupt, w') =>
        logger WARNING [Lit (String.append newline "Download interrupted by user")] w'
    | (Raise (Exception msg), w') =>
        logger_exc_info ERROR [Lit "Critical error during execution: "; FStr msg] w'
    | (Raise (BaseException msg), w') => (Raise (BaseException msg), w')
    end.

(** The exit status of the interpreter: 0 when the script runs off its
    end, 1 when an exception reaches the top level uncaught. *)
Definition exit_status (r : outcome unit) : Z :=
  match r with
  | Ret _ => 0
  | Raise _ => 1
  end.

Definition script (w : World) : Z * World :=
  let (r, w') := main_guard w in (exit_status r, w').

End Program.

Definition empty_world : World := mkWorld ∅ O [].

(** ** What a trace shows *)

(** The requests and the pauses of a trace, in order. *)
Inductive tick : Type :=
| Fetch (symbol : string)
| Pause (ms : Z).

Definition tick_of (ev : event) : option tick :=
  match ev with
  | Request symbol _ _ _ => Some (Fetch symbol)
  | Sleep ms => Some (Pause ms)
  | _ => None
  end.

Definition schedule (t : list event) : list tick := omap tick_of t.

Definition fetch_of (k : tick) : option string :=
  match k with Fetch symbol => Some symbol | Pause _ => None end.

Definition pause_of (k : tick) : option Z :=
  match k with Pause ms => Some ms | Fetch _ => None end.

(** The symbols requested from the provider, in order. *)
Definition attempted (t : list event) : list string := omap fetch_of (schedule t).

(** The delays slept, in order. *)
Definition sleeps (t : list event) : list Z := omap pause_of (schedule t).

Definition write_of (ev : event) : option string :=
  match ev with WriteFile path => Some path | _ => None end.

(** The paths written, in order. *)
Definition written (t : list event) : list string := omap write_of t.

(** One request then one pause per symbol. *)
Definition paced (stocks : list string) : list tick :=
  flat_map (fun symbol => [Fetch symbol; Pause 500]) stocks.

(** ** Assumptions on the collaborators *)

(** The provider answers with a frame or fails with an [Exception]. *)
Definition provider_catchable (env : Env) : Prop :=
  forall n symbol s e adj, catchable (yf_download env n symbol s e adj).

(** Writing a file succeeds or fails with an [Exception]. *)
Definition storage_catchable (env : Env) : Prop :=
  forall path data, catchable (to_csv env path data).

(** Reading the remote list succeeds or fails with an [Exception]. *)
Definition catalog_catchable (env : Env) : Prop :=
  forall url, catchable (read_csv env url).

(** The remote constituent list cannot be used: the read fails (network,
    parse) or the table has no ["Symbol"] column (schema mismatch). *)
Definition catalog_fetch_fails (env : Env) : Prop :=
  (exists msg, read_csv env nse_url = Raise (Exception msg)) \/
  (exists df, read_csv env nse_url = Ret df /\
              column_lookup "Symbol" (df_columns df) = None).

(** Whether the download of [symbol], issued as request number [n], ends
    with a file written. *)
Definition stock_ok (env : Env) (save_path : string) (s e : Z)
    (n : nat) (symbol : string) : bool :=
  match yf_download env n symbol s e (Some true) with
  | Ret data =>
      negb (df_empty data) &&
      match to_csv env (path_join save_path (String.append (clean_symbol symbol) ".csv")) data with
      | Ret _ => true
      | Raise _ => false
      end
  | Raise _ => false
  end.

(** How many of [stocks], requested from number [n] on, end with a file. *)
Fixpoint successes (env : Env) (save_path : string) (s e : Z)
    (n : nat) (stocks : list string) : Z :=
  match stocks with
  | [] => 0
  | symbol :: rest =>
      (if stock_ok env save_path s e n symbol then 1 else 0)
      + successes env save_path s e (S n) rest
  end.

(** The [stats] dict as [run_full_download] leaves it. *)
Definition final_stats (start_date end_date : Z) (nifty sensex : Z * Z)
  : gmap string py_value :=
  <["sensex_total" := VInt (snd sensex)]>
  (<["sensex_success" := VInt (fst sensex)]>
  (<["nifty_total" := VInt (snd nifty)]>
  (<["nifty_success" := VInt (fst nifty)]>
  (<["indices_downloaded" := VInt 3]>
  (<["sensex_total" := VInt 0]>
  (<["sensex_success" := VInt 0]>
  (<["nifty_total" := VInt 0]>
  (<["nifty_success" := VInt 0]>
  (<["indices_downloaded" := VInt 0]>
  (<["end_date" := VDatetime end_date]>
  (<["start_date" := VDatetime start_date]> ∅))))))))))).

(** ** Sample collaborators *)

Definition sample_frame (n : nat) : DataFrame :=
  mkDataFrame (repeat "2024-01-01" n) [("Close", repeat "100.0" n)].

Definition empty_frame : DataFrame := mkDataFrame [] [].

(** 2026-11-03T00:00:00, microseconds after [datetime.min]. *)
Definition sample_now : Z := 739922 * Datetime.us_per_day.

(** A provider that knows one symbol, has no rows for another and times out
    on every other one; the remote list is unreachable. *)
Definition env_flaky : Env :=
  mkEnv sample_now
    (fun _ => Ret tt)
    (fun _ => Raise (Exception "URLError: connection refused"))
    (fun _ symbol _ _ _ =>
       if String.eqb symbol "GOOD.NS" then Ret (sample_frame 100)
       else if String.eqb symbol "EMPTY.NS" then Ret empty_frame
       else Raise (Exception "ReadTimeout"))
    (fun _ _ => Ret tt).

(** A data directory that cannot be created. *)
Definition env_readonly : Env :=
  mkEnv sample_now
    (fun _ => Raise (Exception "PermissionError: [Errno 13] Permission denied: 'data'"))
    (fun _ => Raise (Exception "URLError: connection refused"))
    (fun _ _ _ _ _ => Ret (sample_frame 100))
    (fun _ _ => Ret tt).

Definition sample_self : StockDataDownloader :=
  mkDownloader "data" "data/nifty50" "data/sensex30".

(** An interrupt is not an [Exception]: it leaves the batch at once. *)
Definition env_interrupted : Env :=
  mkEnv sample_now
    (fun _ => Ret tt)
    (fun _ => Raise (Exception "URLError: connection refused"))
    (fun n _ _ _ _ => if (n =? 1)%nat then Raise KeyboardInterrupt else Ret (sample_frame 100))
    (fun _ _ => Ret tt).

(** ** What a computation adds to the world *)

(** The path [download_single_stock] writes for [symbol]. *)
Definition stock_filename (save_path symbol : string) : string :=
  path_join save_path (String.append (clean_symbol symbol) ".csv").

(** The path [download_market_indices] writes for the index called [name]. *)
Definition index_filename (self : StockDataDownloader) (name : string) : string :=
  path_join (base_path self) (String.append name "_index.csv").

(** The keys of the [stats] dict. *)
Definition stats_keys : list string :=
  [ "start_date"; "end_date"; "indices_downloaded"; "nifty_success";
    "nifty_total"; "sensex_success"; "sensex_total" ].

(** [w'] is [w] after the requests and pauses [ticks] and the writes
    [paths], in this order each, and after nothing else that touches the
    request counter or the stored files. *)
Definition grows (w w' : World) (ticks : list tick) (paths : list string) : Prop :=
  requests w' = (requests w + length (omap fetch_of ticks))%nat
  /\ schedule (trace w') = schedule (trace w) ++ ticks
  /\ written (trace w') = written (trace w) ++ paths
  /\ dom (files w') = dom (files w) ∪ list_to_set paths
  /\ (forall path, path ∉ paths -> files w' !! path = files w !! path).

(** A computation that requests nothing, sleeps never and writes no file,
    however it ends. *)
Definition quiet {A : Type} (m : M A) : Prop :=
  forall w r w', m w = (r, w') -> grows w w' [] [].

(** Creating a directory succeeds or fails with an [Exception]. *)
Definition directories_catchable (env : Env) : Prop :=
  forall path, catchable (makedirs env path).

(** A computation that, when it raises, raises an [Exception]. *)
Definition raises_only_Exception {A : Type} (m : M A) : Prop :=
  forall w ex w', m w = (Raise ex, w') -> is_Exception ex = true.

(** The remote list is reachable and has two rows. *)
Definition env_live : Env :=
  mkEnv sample_now
    (fun _ => Ret tt)
    (fun _ => Ret (mkDataFrame ["0"; "1"]
                     [("Company Name", ["Reliance Industries Ltd."; "Mahindra & Mahindra Ltd."]);
                      ("Symbol", ["RELIANCE"; "M&M"])]))
    (fun _ _ _ _ _ => Ret (sample_frame 100))
    (fun _ _ => Ret tt).

(** The provider answers, the disk is full. *)
Definition env_disk_full : Env :=
  mkEnv sample_now
    (fun _ => Ret tt)
    (fun _ => Raise (Exception "URLError: connection refused"))
    (fun _ _ _ _ _ => Ret (sample_frame 100))
    (fun _ _ => Raise (Exception "OSError: [Errno 28] No space left on device")).

(** The three-symbol batch against the flaky provider, and where it ends. *)
Definition sample_batch : outcome (Z * Z) * World :=
  bulk_download_stocks env_flaky sample_self ["GOOD.NS"; "EMPTY.NS"; "BAD.NS"]
    "data/nifty50" 0 10 empty_world.

(** A batch that is interrupted during its second request. *)
Definition interrupted_batch : outcome (Z * Z) * World :=
  bulk_download_stocks env_interrupted sample_self ["A.NS"; "B.NS"; "C.NS"]
    "data/nifty50" 0 10 empty_world.

(** The index phase against the flaky provider. *)
Definition sample_indices : outcome unit * World :=
  download_market_indices env_flaky sample_self 0 10 empty_world.

(** A full run of ten years against the flaky provider, and its stats. *)
Definition sample_run : outcome (gmap string py_value) * World :=
  run_full_download env_flaky sample_self 10 empty_world.

Definition sample_stats : gmap string py_value :=
  match fst sample_run with
  | Ret stats => stats
  | Raise _ => ∅
  end.

(** * Properties *)

(** ** Python strings and the filename stem *)

Example replace_all_occurrences : PyStr.replace "ab" "-" "abcabab" = "-c--".
Proof. reflexivity. Qed.

Example replace_no_overlap : PyStr.replace "aa" "b" "aaa" = "ba".
Proof. reflexivity. Qed.

Example replace_empty_old : PyStr.replace EmptyString "-" "abc" = "-a-b-c-".
Proof. reflexivity. Qed.

Example clean_symbol_mm_ns : clean_symbol "M&M.NS" = "M&M".
Proof. reflexivity. Qed.

Lemma append_cons (c : ascii) (s t : string) :
  String.append (String c s) t = String c (String.append s t).
Proof. reflexivity. Qed.

Lemma append_empty_r (s : string) : String.append s EmptyString = s.
Proof. induction s as [|c s IH]; [done|]. by rewrite append_cons, IH. Qed.

Lemma prefix_dot_mismatch (old_rest : string) (c : ascii) (rest : string) :
  Ascii.eqb "." c = false ->
  String.prefix (String "." old_rest) (String c rest) = false.
Proof.
  intros Hc. cbn [String.prefix].
  destruct (ascii_dec "." c) as [<-|]; [|done].
  rewrite Ascii.eqb_refl in Hc. discriminate.
Qed.

(** A ticker without a dot is copied as it is; the scan resumes at its end. *)
Lemma replace_from_dotless (old_rest base tail : string) :
  PyStr.contains_char "." base = false ->
  PyStr.replace_from (String "." old_rest) EmptyString O (String.append base tail)
  = String.append base (PyStr.replace_from (String "." old_rest) EmptyString O tail).
Proof.
  induction base as [|c base IH]; intros Hdot; [done|].
  cbn [PyStr.contains_char] in Hdot. apply orb_false_elim in Hdot as [Hc Hrest].
  rewrite append_cons. cbn [PyStr.replace_from].
  rewrite (prefix_dot_mismatch old_rest c (String.append base tail) Hc).
  by rewrite IH, append_cons.
Qed.

(** On a ticker without a dot, the two replacements remove the exchange
    suffix and nothing else. *)
Lemma clean_symbol_dotless (base : string) :
  PyStr.contains_char "." base = false ->
  clean_symbol (String.append base ".NS") = base
  /\ clean_symbol (String.append base ".BO") = base.
Proof.
  intros Hdot. unfold clean_symbol, PyStr.replace. split.
  - rewrite (replace_from_dotless "NS" base ".NS" Hdot).
    change (PyStr.replace_from ".NS" EmptyString 0 ".NS") with EmptyString.
    rewrite (replace_from_dotless "BO" base EmptyString Hdot).
    apply append_empty_r.
  - rewrite (replace_from_dotless "NS" base ".BO" Hdot).
    change (PyStr.replace_from ".NS" EmptyString 0 ".BO") with ".BO".
    rewrite (replace_from_dotless "BO" base ".BO" Hdot).
    apply append_empty_r.
Qed.

(** Every symbol of the two built-in lists loses its suffix and nothing else. *)
Lemma clean_symbol_catalogue :
  map clean_symbol _get_fallback_nifty50
    = map (remove_exchange_suffix ".NS") _get_fallback_nifty50
  /\ map clean_symbol sensex_constituents
     = map (remove_exchange_suffix ".BO") sensex_constituents.
Proof. split; vm_compute; reflexivity. Qed.

(** ** Lemmas on traces *)

Lemma schedule_app (t1 t2 : list event) :
  schedule (t1 ++ t2) = schedule t1 ++ schedule t2.
Proof. apply omap_app. Qed.

Lemma written_app (t1 t2 : list event) :
  written (t1 ++ t2) = written t1 ++ written t2.
Proof. apply omap_app. Qed.

Lemma attempted_app (t1 t2 : list event) :
  attempted (t1 ++ t2) = attempted t1 ++ attempted t2.
Proof. unfold attempted. rewrite schedule_app. apply omap_app. Qed.

Lemma sleeps_app (t1 t2 : list event) :
  sleeps (t1 ++ t2) = sleeps t1 ++ sleeps t2.
Proof. unfold sleeps. rewrite schedule_app. apply omap_app. Qed.

Lemma attempted_paced (stocks : list string) :
  omap fetch_of (paced stocks) = stocks.
Proof.
  induction stocks as [|symbol rest IH]; [done|].
  change (paced (symbol :: rest)) with ([Fetch symbol; Pause 500] ++ paced rest).
  rewrite omap_app, IH. done.
Qed.

Lemma sleeps_paced (stocks : list string) :
  omap pause_of (paced stocks) = repeat 500 (length stocks).
Proof.
  induction stocks as [|symbol rest IH]; [done|].
  change (paced (symbol :: rest)) with ([Fetch symbol; Pause 500] ++ paced rest).
  rewrite omap_app, IH. done.
Qed.

Lemma successes_bounds env save_path s e (stocks : list string) :
  forall n, 0 <= successes env save_path s e n stocks <= Z.of_nat (length stocks).
Proof.
  induction stocks as [|symbol rest IH]; intros n; simpl successes; simpl length.
  - lia.
  - specialize (IH (S n)). destruct (stock_ok env save_path s e n symbol); lia.
Qed.

(** A position whose download does not end with a file is not counted. *)
Lemma successes_miss env save_path s e (stocks : list string) :
  forall n (k : nat) symbol,
    stocks !! k = Some symbol ->
    stock_ok env save_path s e (n + k) symbol = false ->
    successes env save_path s e n stocks < Z.of_nat (length stocks).
Proof.
  induction stocks as [|x rest IH]; intros n k symbol Hk Hmiss; [done|].
  simpl successes; simpl length. destruct k as [|k].
  - injection Hk as ->. rewrite Nat.add_0_r in Hmiss. rewrite Hmiss.
    pose proof (successes_bounds env save_path s e rest (S n)). lia.
  - simpl in Hk. replace (n + S k)%nat with (S n + k)%nat in Hmiss by lia.
    specialize (IH (S n) k symbol Hk Hmiss).
    destruct (stock_ok env save_path s e n x); lia.
Qed.

Arguments path_join : simpl never.
Arguments clean_symbol : simpl never.

Lemma schedule_snoc (t : list event) (ev : event) :
  schedule (t ++ [ev]) = schedule t ++ from_option (fun k => [k]) [] (tick_of ev).
Proof. rewrite schedule_app. unfold schedule at 2. simpl. by destruct (tick_of ev). Qed.

Ltac trace_simpl :=
  cbn [trace requests files emit];
  repeat (rewrite schedule_snoc; cbn [tick_of from_option]);
  rewrite ?app_nil_r, <- ?app_assoc.

(** ** One batch: every symbol is processed once, whatever its outcome *)

Section Isolation.
Variable env : Env.
Hypothesis Hprovider : provider_catchable env.
Hypothesis Hstorage : storage_catchable env.
Variables (self : StockDataDownloader) (save_path : string) (s e : Z).

(** One download: a boolean is returned, one request is issued, nothing is
    slept. *)
Lemma download_single_stock_spec symbol w :
  exists w',
    download_single_stock env self symbol s e save_path w
      = (Ret (stock_ok env save_path s e (requests w) symbol), w')
    /\ requests w' = S (requests w)
    /\ schedule (trace w') = schedule (trace w) ++ [Fetch symbol].
Proof.
  unfold download_single_stock, try_except_Exception, bind, logger,
    yf_download_call, stock_ok.
  cbn [emit requests].
  pose proof (Hprovider (requests w) symbol s e (Some true)) as Hp.
  destruct (yf_download env (requests w) symbol s e (Some true)) as [data|ex].
  - destruct (df_empty data); cbn [negb andb].
    + eexists. split; [reflexivity|]. split; [reflexivity|]. by trace_simpl.
    + unfold df_to_csv. cbn [files requests trace].
      pose proof (Hstorage (path_join save_path (String.append (clean_symbol symbol) ".csv")) data) as Hs.
      destruct (to_csv env _ data) as [[]|ex].
      * eexists. split; [reflexivity|]. split; [reflexivity|]. by trace_simpl.
      * destruct ex; try discriminate Hs.
        eexists. split; [reflexivity|]. split; [reflexivity|]. by trace_simpl.
  - destruct ex; try discriminate Hp.
    eexists. split; [reflexivity|]. split; [reflexivity|]. by trace_simpl.
Qed.

(** One turn of the loop: the download, then the pause. *)
Lemma bulk_body_spec total idx symbol sc w :
  exists w',
    bulk_body env self save_path s e total idx symbol sc w
      = (Ret (sc + (if stock_ok env save_path s e (requests w) symbol then 1 else 0)), w')
    /\ requests w' = S (requests w)
    /\ schedule (trace w') = schedule (trace w) ++ [Fetch symbol; Pause 500].
Proof.
  unfold bulk_body, bind, logger, time_sleep, ret.
  destruct (download_single_stock_spec symbol
              (emit (Log INFO [Lit "Processing "; FInt idx; Lit "/"; FInt total;
                               Lit ": "; FStr symbol] false) w))
    as (w1 & Hrun & Hreq & Hsched).
  rewrite Hrun. cbn [requests emit] in *.
  eexists. split; [|split].
  - destruct (stock_ok env save_path s e (requests w) symbol);
      [reflexivity | by rewrite Z.add_0_r].
  - done.
  - trace_simpl. rewrite Hsched. by trace_simpl.
Qed.

(** The loop runs to the end of the list. *)
Lemma bulk_loop_spec total stocks :
  forall idx sc w, exists w',
    bulk_loop env self save_path s e total idx stocks sc w
      = (Ret (sc + successes env save_path s e (requests w) stocks), w')
    /\ requests w' = (requests w + length stocks)%nat
    /\ schedule (trace w') = schedule (trace w) ++ paced stocks.
Proof.
  induction stocks as [|symbol rest IH]; intros idx sc w.
  - exists w. cbn [bulk_loop successes length paced flat_map]. unfold ret.
    rewrite Z.add_0_r, Nat.add_0_r, app_nil_r. done.
  - cbn [bulk_loop]. unfold bind at 1.
    destruct (bulk_body_spec total idx symbol sc w) as (w1 & Hrun & Hreq & Hsched).
    rewrite Hrun.
    destruct (IH (idx + 1) (sc + (if stock_ok env save_path s e (requests w) symbol then 1 else 0)) w1)
      as (w2 & Hrun2 & Hreq2 & Hsched2).
    exists w2. rewrite Hrun2, Hreq2, Hsched2, Hreq, Hsched.
    cbn [successes length]. split; [|split].
    + f_equal. f_equal. lia.
    + lia.
    + change (paced (symbol :: rest)) with ([Fetch symbol; Pause 500] ++ paced rest).
      by rewrite <- app_assoc.
Qed.

Lemma bulk_download_stocks_spec stock_list w :
  exists w',
    bulk_download_stocks env self stock_list save_path s e w
      = (Ret (successes env save_path s e (requests w) stock_list,
              Z.of_nat (length stock_list)), w')
    /\ requests w' = (requests w + length stock_list)%nat
    /\ schedule (trace w') = schedule (trace w) ++ paced stock_list.
Proof.
  unfold bulk_download_stocks, bind at 1, logger at 1.
  unfold bind at 1.
  destruct (bulk_loop_spec (Z.of_nat (length stock_list)) stock_list 1 0
              (emit (Log INFO [Lit "Starting bulk download of ";
                               FInt (Z.of_nat (length stock_list));
                               Lit " stocks"] false) w))
    as (w1 & Hrun & Hreq & Hsched).
  rewrite Hrun. unfold bind, logger, ret. cbn [requests emit] in *.
  eexists. split; [reflexivity|]. split; [done|].
  trace_simpl. rewrite Hsched. by trace_simpl.
Qed.
End Isolation.

(** ** The index phase *)

Section Indices.
Variable env : Env.
Hypothesis Hprovider : provider_catchable env.
Hypothesis Hstorage : storage_catchable env.
Variables (self : StockDataDownloader) (s e : Z).

(** One index: a request, no pause, and nothing raised. *)
Lemma index_body_spec (entry : string * string) w :
  exists w',
    index_body env self s e entry w = (Ret tt, w')
    /\ requests w' = S (requests w)
    /\ schedule (trace w') = schedule (trace w) ++ [Fetch (fst entry)].
Proof.
  unfold index_body, try_except_Exception, bind, logger, yf_download_call.
  cbn [emit requests].
  pose proof (Hprovider (requests w) (fst entry) s e None) as Hp.
  destruct (yf_download env (requests w) (fst entry) s e None) as [data|ex].
  - destruct (df_empty data); cbn [negb].
    + eexists. split; [reflexivity|]. split; [reflexivity|]. by trace_simpl.
    + unfold df_to_csv. cbn [files requests trace].
      pose proof (Hstorage (path_join (base_path self)
                              (String.append (snd entry) "_index.csv")) data) as Hs.
      destruct (to_csv env _ data) as [[]|ex].
      * eexists. split; [reflexivity|]. split; [reflexivity|]. by trace_simpl.
      * destruct ex; try discriminate Hs.
        eexists. split; [reflexivity|]. split; [reflexivity|]. by trace_simpl.
  - destruct ex; try discriminate Hp.
    eexists. split; [reflexivity|]. split; [reflexivity|]. by trace_simpl.
Qed.

Lemma index_loop_spec (entries : list (string * string)) :
  forall w, exists w',
    for_each (index_body env self s e) entries w = (Ret tt, w')
    /\ requests w' = (requests w + length entries)%nat
    /\ schedule (trace w') = schedule (trace w) ++ map Fetch (map fst entries).
Proof.
  induction entries as [|entry rest IH]; intros w.
  - exists w. cbn [for_each map length]. unfold ret.
    by rewrite Nat.add_0_r, app_nil_r.
  - cbn [for_each]. unfold bind.
    destruct (index_body_spec entry w) as (w1 & Hrun & Hreq & Hsched).
    rewrite Hrun.
    destruct (IH w1) as (w2 & Hrun2 & Hreq2 & Hsched2).
    exists w2. rewrite Hrun2, Hreq2, Hsched2, Hreq, Hsched.
    cbn [map length]. split; [done|]. split; [lia|]. by rewrite <- app_assoc.
Qed.

Lemma download_market_indices_spec w :
  exists w',
    download_market_indices env self s e w = (Ret tt, w')
    /\ requests w' = (requests w + 3)%nat
    /\ schedule (trace w') = schedule (trace w) ++ map Fetch (map fst indices_config).
Proof.
  unfold download_market_indices, bind, logger.
  destruct (index_loop_spec indices_config
              (emit (Log INFO [Lit "Starting download of market indices"] false) w))
    as (w1 & Hrun & Hreq & Hsched).
  exists w1. split; [exact Hrun|]. split; [exact Hreq|].
  rewrite Hsched. by trace_simpl.
Qed.
End Indices.

Lemma sleeps_fetches (symbols : list string) :
  omap pause_of (map Fetch symbols) = [].
Proof. induction symbols as [|x rest IH]; [done | exact IH]. Qed.

(** ** The whole run *)

Lemma bind_Ret {A B : Type} (m : M A) (k : A -> M B) (w w1 : World) (a : A) :
  m w = (Ret a, w1) -> bind m k w = k a w1.
Proof. intros H. unfold bind. by rewrite H. Qed.

Lemma bind_Ret_inv {A B : Type} (m : M A) (k : A -> M B) (w w' : World) (b : B) :
  bind m k w = (Ret b, w') ->
  exists a w1, m w = (Ret a, w1) /\ k a w1 = (Ret b, w').
Proof.
  unfold bind. destruct (m w) as [[a|ex] w1]; [|discriminate].
  intros H. by exists a, w1.
Qed.

Lemma final_stats_lookup (start_date end_date : Z) (nifty sensex : Z * Z) :
  final_stats start_date end_date nifty sensex !! "start_date" = Some (VDatetime start_date)
  /\ final_stats start_date end_date nifty sensex !! "end_date" = Some (VDatetime end_date)
  /\ final_stats start_date end_date nifty sensex !! "indices_downloaded" = Some (VInt 3)
  /\ final_stats start_date end_date nifty sensex !! "nifty_success" = Some (VInt (fst nifty))
  /\ final_stats start_date end_date nifty sensex !! "nifty_total" = Some (VInt (snd nifty))
  /\ final_stats start_date end_date nifty sensex !! "sensex_success" = Some (VInt (fst sensex))
  /\ final_stats start_date end_date nifty sensex !! "sensex_total" = Some (VInt (snd sensex)).
Proof. unfold final_stats. repeat split; by simplify_map_eq. Qed.

Lemma print_summary_total (self : StockDataDownloader)
    (start_date end_date : Z) (nifty sensex : Z * Z) (w : World) :
  exists w',
    _print_summary self (final_stats start_date end_date nifty sensex) w = (Ret tt, w').
Proof.
  destruct (final_stats_lookup start_date end_date nifty sensex)
    as (H1 & H2 & H3 & H4 & H5 & H6 & H7).
  unfold _print_summary, dict_get.
  rewrite H1, H2, H3, H4, H5, H6, H7.
  eexists. reflexivity.
Qed.

Ltac inv_bind H :=
  apply bind_Ret_inv in H; destruct H as (? & ? & ? & H).

Lemma date_range_ok (env : Env) (years : Z) (w : World) :
  Z.abs (years * 365) <= Datetime.max_delta_days ->
  Datetime.in_range (now env - years * 365 * Datetime.us_per_day) = true ->
  date_range env years w
    = (Ret (now env - years * 365 * Datetime.us_per_day, now env), w).
Proof.
  intros Hdays Hrange.
  unfold date_range, datetime_now, bind, ret, lift, Datetime.timedelta_days, Datetime.sub.
  apply Z.leb_le in Hdays. by rewrite Hdays, Hrange.
Qed.

Lemma date_range_inv (env : Env) (years : Z) (w w' : World) (range : Z * Z) :
  date_range env years w = (Ret range, w') ->
  w' = w /\ range = (now env - years * 365 * Datetime.us_per_day, now env).
Proof.
  unfold date_range, datetime_now, bind, ret, lift, Datetime.timedelta_days, Datetime.sub.
  destruct (Z.abs (years * 365) <=? Datetime.max_delta_days); [|discriminate].
  destruct (Datetime.in_range (now env - years * 365 * Datetime.us_per_day));
    [|discriminate].
  intros H. injection H as <- <-. done.
Qed.

(** Stats that are returned have the shape of [final_stats]. *)
Lemma run_full_download_inv (env : Env) (self : StockDataDownloader) (years : Z)
    (w w' : World) (stats : gmap string py_value) :
  run_full_download env self years w = (Ret stats, w') ->
  exists nifty sensex,
    stats = final_stats (now env - years * 365 * Datetime.us_per_day) (now env)
              nifty sensex.
Proof.
  unfold run_full_download. intros H.
  repeat inv_bind H.
  match goal with
  | Hd : date_range _ _ _ = _ |- _ => apply date_range_inv in Hd; destruct Hd as [_ ->]
  end.
  injection H as <- _.
  eexists _, _. reflexivity.
Qed.

Lemma get_nifty50_stocks_total (env : Env) (self : StockDataDownloader) (w : World) :
  catalog_catchable env ->
  exists symbols w', get_nifty50_stocks env self w = (Ret symbols, w').
Proof.
  intros Hc. unfold get_nifty50_stocks, try_except_Exception, bind, pd_read_csv, lift,
    df_getitem_tolist, logger, ret.
  pose proof (Hc nse_url) as Hr.
  destruct (read_csv env nse_url) as [df|ex].
  - destruct (column_lookup "Symbol" (df_columns df)); eexists _, _; reflexivity.
  - destruct ex; try discriminate Hr. eexists _, _; reflexivity.
Qed.

Lemma phase_banner_total (title : string) (w : World) :
  exists w', phase_banner title w = (Ret tt, w').
Proof. eexists. reflexivity. Qed.

(** With collaborators that fail only with errors and a date range that does
    not overflow, the run reaches its summary and returns the stats. *)
Lemma run_full_download_total (env : Env) (self : StockDataDownloader) (years : Z)
    (w : World) :
  provider_catchable env ->
  storage_catchable env ->
  catalog_catchable env ->
  Z.abs (years * 365) <= Datetime.max_delta_days ->
  Datetime.in_range (now env - years * 365 * Datetime.us_per_day) = true ->
  exists nifty sensex w',
    run_full_download env self years w
      = (Ret (final_stats (now env - years * 365 * Datetime.us_per_day) (now env)
                nifty sensex), w').
Proof.
  intros Hp Hs Hc Hdays Hrange. unfold run_full_download.
  rewrite (bind_Ret _ _ _ _ _ (date_range_ok env years w Hdays Hrange)).
  cbn [fst snd].
  set (start_date := now env - years * 365 * Datetime.us_per_day).
  repeat (erewrite bind_Ret by reflexivity).
  match goal with
  | |- context [bind (download_market_indices _ _ _ _) _ ?w0] =>
      destruct (download_market_indices_spec env Hp Hs self start_date (now env) w0)
        as (w1 & Hrun1 & _)
  end.
  rewrite (bind_Ret _ _ _ _ _ Hrun1).
  repeat (erewrite bind_Ret by reflexivity).
  destruct (get_nifty50_stocks_total env self
              (emit (Log INFO [Lit banner] false)
                 (emit (Log INFO [Lit "PHASE 2: Downloading Nifty 50 Stocks"] false)
                    (emit (Log INFO [Lit (String.append newline banner)] false) w1))) Hc)
    as (nifty_stocks & w2 & Hrun2).
  erewrite bind_Ret by exact Hrun2.
  destruct (bulk_download_stocks_spec env Hp Hs self (nifty_path self) start_date (now env)
              nifty_stocks w2) as (w3 & Hrun3 & _).
  rewrite (bind_Ret _ _ _ _ _ Hrun3).
  repeat (erewrite bind_Ret by reflexivity).
  match goal with
  | |- context [bind (bulk_download_stocks _ _ ?l _ _ _) _ ?w0] =>
      destruct (bulk_download_stocks_spec env Hp Hs self (sensex_path self)
                  start_date (now env) l w0) as (w4 & Hrun4 & _)
  end.
  rewrite (bind_Ret _ _ _ _ _ Hrun4).
  match goal with
  | |- context [bind (_print_summary _ ?st) _ ?w0] =>
      destruct (print_summary_total self start_date (now env)
                  (successes env (nifty_path self) start_date (now env) (requests w2) nifty_stocks,
                   Z.of_nat (length nifty_stocks))
                  (successes env (sensex_path self) start_date (now env) (requests w3) sensex_constituents,
                   Z.of_nat (length sensex_constituents)) w0) as (w5 & Hrun5)
  end.
  eexists _, _, w5.
  etransitivity; [apply bind_Ret; exact Hrun5|]. reflexivity.
Qed.

(** ** A tally, when one is returned, is sound for any collaborators *)

Lemma bulk_body_tally (env : Env) (self : StockDataDownloader) (save_path : string)
    (s e total idx : Z) (symbol : string) (sc sc1 : Z) (w w1 : World) :
  bulk_body env self save_path s e total idx symbol sc w = (Ret sc1, w1) ->
  sc <= sc1 <= sc + 1.
Proof.
  unfold bulk_body. intros H. repeat inv_bind H.
  injection H as <- _.
  match goal with |- context [if ?ok then _ else _] => destruct ok end; lia.
Qed.

Lemma bulk_loop_tally (env : Env) (self : StockDataDownloader) (save_path : string)
    (s e total : Z) (stocks : list string) :
  forall idx sc sc1 w w1,
    bulk_loop env self save_path s e total idx stocks sc w = (Ret sc1, w1) ->
    sc <= sc1 <= sc + Z.of_nat (length stocks).
Proof.
  induction stocks as [|symbol rest IH]; intros idx sc sc1 w w1 H.
  - injection H as <- _. cbn [length]. lia.
  - cbn [bulk_loop] in H. inv_bind H.
    match goal with
    | Hb : bulk_body _ _ _ _ _ _ _ _ _ _ = _ |- _ => apply bulk_body_tally in Hb
    end.
    apply IH in H. cbn [length]. lia.
Qed.

(** No assumption on the collaborators: an interrupt may end the batch, but
    a tally that is returned counts the whole list. *)
Lemma bulk_download_tally_sound (env : Env) (self : StockDataDownloader)
    (stock_list : list string) (save_path : string) (s e : Z)
    (w w' : World) (success total : Z) :
  bulk_download_stocks env self stock_list save_path s e w = (Ret (success, total), w') ->
  total = Z.of_nat (length stock_list) /\ 0 <= success <= total.
Proof.
  unfold bulk_download_stocks. intros H. repeat inv_bind H.
  injection H as <- <- _.
  match goal with
  | Hl : bulk_loop _ _ _ _ _ _ _ _ _ _ = _ |- _ => apply bulk_loop_tally in Hl
  end.
  lia.
Qed.

(** ** The sample collaborators at work *)

Lemma env_flaky_provider : provider_catchable env_flaky.
Proof.
  intros n symbol s e adj. cbn.
  destruct (String.eqb symbol "GOOD.NS"); [exact I|].
  destruct (String.eqb symbol "EMPTY.NS"); [exact I | reflexivity].
Defined.

Lemma env_flaky_storage : storage_catchable env_flaky.
Proof. intros path data. exact I. Defined.

Lemma env_flaky_catalog : catalog_catchable env_flaky.
Proof. intros url. reflexivity. Defined.

(** An interrupt during the second request ends the batch there. *)
Example interrupt_aborts_batch :
  exists w',
    bulk_download_stocks env_interrupted sample_self ["A.NS"; "B.NS"; "C.NS"]
      "data/nifty50" 0 10 empty_world = (Raise KeyboardInterrupt, w')
    /\ attempted (trace w') = ["A.NS"; "B.NS"]
    /\ sleeps (trace w') = [500].
Proof. eexists. repeat split; reflexivity. Qed.

(** The guard logs the interrupt as a warning. *)
Example interrupt_logged_exit_zero :
  exists w',
    script env_interrupted empty_world = (0, w')
    /\ last (trace w')
       = Some (Log WARNING
                 [Lit (String.append newline "Download interrupted by user")] false).
Proof. eexists. split; vm_compute; reflexivity. Qed.

(** Three symbols: rows, no rows, a transport error. *)
Example end_to_end_scenario :
  exists w',
    bulk_download_stocks env_flaky sample_self ["GOOD.NS"; "EMPTY.NS"; "BAD.NS"]
      "data/nifty50" 0 10 empty_world = (Ret (1, 3), w')
    /\ written (trace w') = ["data/nifty50/GOOD.csv"]
    /\ dom (files w') = {["data/nifty50/GOOD.csv"]}.
Proof. eexists. split; [reflexivity|]. split; [reflexivity|]. vm_compute. reflexivity. Qed.

(** ** The claims *)

(** C1. For every symbol list and every position [k]: when the fetch of the
    symbol at position [k] fails with an error, [bulk_download_stocks] still
    returns; the requests it issues are the symbols of the list, each once
    and in order (so every symbol after position [k] is attempted and the
    failed one is not requested again), the returned total is the length of
    the list, and the failed symbol is not counted as a success. *)
Theorem bulk_download_isolates_failure
    (env : Env) (self : StockDataDownloader) (stock_list : list string)
    (save_path : string) (s e : Z) (w : World)
    (k : nat) (symbol msg : string) :
  provider_catchable env ->
  storage_catchable env ->
  stock_list !! k = Some symbol ->
  yf_download env (requests w + k) symbol s e (Some true) = Raise (Exception msg) ->
  exists success w',
    bulk_download_stocks env self stock_list save_path s e w
      = (Ret (success, Z.of_nat (length stock_list)), w')
    /\ attempted (trace w') = attempted (trace w) ++ stock_list
    /\ drop (length (attempted (trace w)) + S k) (attempted (trace w'))
       = drop (S k) stock_list
    /\ requests w' = (requests w + length stock_list)%nat
    /\ success < Z.of_nat (length stock_list).
Proof.
  intros Hprovider Hstorage Hk Hfail.
  destruct (bulk_download_stocks_spec env Hprovider Hstorage self save_path s e stock_list w)
    as (w' & Hrun & Hreq & Hsched).
  assert (Hatt : attempted (trace w') = attempted (trace w) ++ stock_list).
  { unfold attempted. rewrite Hsched, omap_app, attempted_paced. done. }
  eexists _, w'. split; [exact Hrun|]. split; [exact Hatt|].
  split; [by rewrite Hatt, drop_app_add|]. split; [exact Hreq|].
  apply (successes_miss env save_path s e stock_list (requests w) k symbol Hk).
  unfold stock_ok. by rewrite Hfail.
Qed.

Lemma bulk_download_isolates_failure_witness :
  exists success w',
    bulk_download_stocks env_flaky sample_self ["GOOD.NS"; "BAD.NS"; "EMPTY.NS"]
      "data/nifty50" 0 10 empty_world = (Ret (success, 3), w')
    /\ attempted (trace w')
       = attempted (trace empty_world) ++ ["GOOD.NS"; "BAD.NS"; "EMPTY.NS"]
    /\ drop (length (attempted (trace empty_world)) + 2) (attempted (trace w'))
       = ["EMPTY.NS"]
    /\ requests w' = 3%nat
    /\ success < 3.
Proof.
  exact (bulk_download_isolates_failure env_flaky sample_self
           ["GOOD.NS"; "BAD.NS"; "EMPTY.NS"] "data/nifty50" 0 10 empty_world
           1%nat "BAD.NS" "ReadTimeout"
           env_flaky_provider env_flaky_storage eq_refl eq_refl).
Defined.

(** C2. For every symbol list of length [N], whatever the mix of successes,
    empty results and errors, [bulk_download_stocks] returns a pair
    [(success, total)] with [total = N] and [0 <= success <= N]. *)
Theorem bulk_download_tally
    (env : Env) (self : StockDataDownloader) (stock_list : list string)
    (save_path : string) (s e : Z) (w : World) :
  provider_catchable env ->
  storage_catchable env ->
  exists success total w',
    bulk_download_stocks env self stock_list save_path s e w = (Ret (success, total), w')
    /\ total = Z.of_nat (length stock_list)
    /\ 0 <= success <= total.
Proof.
  intros Hprovider Hstorage.
  destruct (bulk_download_stocks_spec env Hprovider Hstorage self save_path s e stock_list w)
    as (w' & Hrun & _ & _).
  eexists _, _, w'. split; [exact Hrun|]. split; [done|].
  apply successes_bounds.
Qed.

Lemma bulk_download_tally_witness :
  exists success total w',
    bulk_download_stocks env_flaky sample_self ["GOOD.NS"; "EMPTY.NS"; "BAD.NS"]
      "data/nifty50" 0 10 empty_world = (Ret (success, total), w')
    /\ total = 3
    /\ 0 <= success <= total.
Proof.
  exact (bulk_download_tally env_flaky sample_self ["GOOD.NS"; "EMPTY.NS"; "BAD.NS"]
           "data/nifty50" 0 10 empty_world env_flaky_provider env_flaky_storage).
Defined.

(** C3. The filename stem is meant to be the symbol without its exchange
    suffix, every other character left as it is.  The code agrees on
    ['M&M.NS'] and ['M&M.BO'], whose stem is ['M&M'], but it deletes every
    occurrence of ['.NS'] and of ['.BO']: the stem of ['A.NS.BO'] comes out
    as ['A'] where removing the trailing ['.BO'] gives ['A.NS'], and the stem
    of ['X.BO.NS'] comes out as ['X'] instead of ['X.BO']. *)
Theorem clean_symbol_strips_inner_suffix :
  clean_symbol "M&M.NS" = "M&M"
  /\ clean_symbol "M&M.BO" = "M&M"
  /\ clean_symbol "A.NS.BO" = "A"
  /\ remove_exchange_suffix ".BO" "A.NS.BO" = "A.NS"
  /\ clean_symbol "X.BO.NS" = "X"
  /\ remove_exchange_suffix ".NS" "X.BO.NS" = "X.BO".
Proof. repeat split; reflexivity. Qed.

(** C4. Whenever the fetch of the remote constituent list fails (the read
    raises an error, or the table lacks the ["Symbol"] column),
    [get_nifty50_stocks] returns the hardcoded fallback list itself, which is
    not empty; nothing is raised, no file is written and no quote is
    requested. *)
Theorem nifty50_fallback_on_failure
    (env : Env) (self : StockDataDownloader) (w : World) :
  catalog_fetch_fails env ->
  exists w',
    get_nifty50_stocks env self w = (Ret _get_fallback_nifty50, w')
    /\ _get_fallback_nifty50 <> []
    /\ files w' = files w
    /\ requests w' = requests w.
Proof.
  intros [[msg Hfail] | (df & Hread & Hcol)];
    unfold get_nifty50_stocks, try_except_Exception, bind, pd_read_csv, lift,
      df_getitem_tolist, logger, ret.
  - rewrite Hfail. eexists. repeat split; done.
  - rewrite Hread, Hcol. eexists. repeat split; done.
Qed.

Lemma nifty50_fallback_on_failure_witness :
  catalog_fetch_fails env_flaky
  /\ exists w',
       get_nifty50_stocks env_flaky sample_self empty_world
         = (Ret _get_fallback_nifty50, w')
       /\ _get_fallback_nifty50 <> []
       /\ files w' = files empty_world
       /\ requests w' = requests empty_world.
Proof.
  assert (H : catalog_fetch_fails env_flaky).
  { left. exists "URLError: connection refused". reflexivity. }
  split; [exact H|].
  exact (nifty50_fallback_on_failure env_flaky sample_self empty_world H).
Defined.

(** C5. For every symbol whose fetch returns an empty series,
    [download_single_stock] returns [False] and writes no file; the loop
    body of the enclosing batch hands the success count on unchanged. *)
Theorem empty_series_writes_nothing
    (env : Env) (self : StockDataDownloader) (symbol : string)
    (s e : Z) (save_path : string) (w : World) (data : DataFrame) :
  yf_download env (requests w) symbol s e (Some true) = Ret data ->
  df_empty data = true ->
  (exists w',
     download_single_stock env self symbol s e save_path w = (Ret false, w')
     /\ files w' = files w
     /\ written (trace w') = written (trace w))
  /\ (forall total idx success_count w0,
        requests w0 = requests w ->
        exists w1,
          bulk_body env self save_path s e total idx symbol success_count w0
            = (Ret success_count, w1)
          /\ files w1 = files w0
          /\ written (trace w1) = written (trace w0)).
Proof.
  intros Hfetch Hempty. split.
  - unfold download_single_stock, try_except_Exception, bind, logger, yf_download_call.
    cbn [emit requests]. rewrite Hfetch, Hempty. cbn [negb].
    eexists. split; [reflexivity|]. split; [reflexivity|].
    cbn [trace emit]. rewrite !written_app. cbn. by rewrite !app_nil_r.
  - intros total idx success_count w0 Hreq.
    unfold bulk_body, download_single_stock, try_except_Exception, bind, logger,
      yf_download_call, time_sleep, ret.
    cbn [emit requests]. rewrite Hreq, Hfetch, Hempty. cbn [negb].
    eexists. split; [reflexivity|]. split; [reflexivity|].
    cbn [trace emit]. rewrite !written_app. cbn. by rewrite !app_nil_r.
Qed.

Lemma empty_series_writes_nothing_witness :
  (exists w',
     download_single_stock env_flaky sample_self "EMPTY.NS" 0 10 "data/nifty50"
       empty_world = (Ret false, w')
     /\ files w' = files empty_world
     /\ written (trace w') = written (trace empty_world))
  /\ (forall total idx success_count w0,
        requests w0 = requests empty_world ->
        exists w1,
          bulk_body env_flaky sample_self "data/nifty50" 0 10 total idx "EMPTY.NS"
            success_count w0 = (Ret success_count, w1)
          /\ files w1 = files w0
          /\ written (trace w1) = written (trace w0)).
Proof.
  exact (empty_series_writes_nothing env_flaky sample_self "EMPTY.NS" 0 10
           "data/nifty50" empty_world empty_frame eq_refl eq_refl).
Defined.

(** C6. When the date arithmetic stays in range, [run_full_download]
    computes [end_date = now] and [start_date = end_date - years * 365]
    days, and these are the dates of the returned stats; for [years = 10]
    the range is 3650 days long (so within a day of it) and [start_date]
    is strictly before [end_date]. *)
Theorem date_range_years (env : Env) (years : Z) (w : World) :
  Z.abs (years * 365) <= Datetime.max_delta_days ->
  Datetime.in_range (now env - years * 365 * Datetime.us_per_day) = true ->
  exists start_date end_date,
    date_range env years w = (Ret (start_date, end_date), w)
    /\ end_date = now env
    /\ start_date = end_date - years * 365 * Datetime.us_per_day
    /\ (years = 10 ->
        end_date - start_date = 3650 * Datetime.us_per_day
        /\ Z.abs (end_date - start_date - 3650 * Datetime.us_per_day)
           <= Datetime.us_per_day
        /\ start_date < end_date)
    /\ (forall self w0 stats w1,
          run_full_download env self years w0 = (Ret stats, w1) ->
          stats !! "start_date" = Some (VDatetime start_date)
          /\ stats !! "end_date" = Some (VDatetime end_date)).
Proof.
  intros Hdays Hrange.
  exists (now env - years * 365 * Datetime.us_per_day), (now env).
  split; [by apply date_range_ok|]. split; [done|]. split; [done|]. split.
  - intros ->. unfold Datetime.us_per_day. lia.
  - intros self w0 stats w1 Hrun.
    apply run_full_download_inv in Hrun. destruct Hrun as (nifty & sensex & ->).
    destruct (final_stats_lookup (now env - years * 365 * Datetime.us_per_day)
                (now env) nifty sensex) as (H1 & H2 & _).
    done.
Qed.

Lemma date_range_years_witness :
  exists start_date end_date,
    date_range env_flaky 10 empty_world = (Ret (start_date, end_date), empty_world)
    /\ end_date = now env_flaky
    /\ start_date = end_date - 10 * 365 * Datetime.us_per_day
    /\ (10 = 10 ->
        end_date - start_date = 3650 * Datetime.us_per_day
        /\ Z.abs (end_date - start_date - 3650 * Datetime.us_per_day)
           <= Datetime.us_per_day
        /\ start_date < end_date)
    /\ (forall self w0 stats w1,
          run_full_download env_flaky self 10 w0 = (Ret stats, w1) ->
          stats !! "start_date" = Some (VDatetime start_date)
          /\ stats !! "end_date" = Some (VDatetime end_date)).
Proof.
  apply (date_range_years env_flaky 10 empty_world).
  - vm_compute. discriminate.
  - vm_compute. reflexivity.
Defined.

(** C7. In [bulk_download_stocks] each request is followed by one pause of
    500 ms, whatever the outcome of the symbol and also after the last one:
    the pauses of a batch are as many as the symbols.
    [download_market_indices] issues its three requests with no pause. *)
Theorem delay_after_every_symbol
    (env : Env) (self : StockDataDownloader) (stock_list : list string)
    (save_path : string) (s e : Z) (w : World) :
  provider_catchable env ->
  storage_catchable env ->
  (exists r w',
     bulk_download_stocks env self stock_list save_path s e w = (Ret r, w')
     /\ schedule (trace w') = schedule (trace w) ++ paced stock_list
     /\ sleeps (trace w') = sleeps (trace w) ++ repeat 500 (length stock_list))
  /\ (exists w',
        download_market_indices env self s e w = (Ret tt, w')
        /\ schedule (trace w')
           = schedule (trace w) ++ [Fetch "^NSEI"; Fetch "^BSESN"; Fetch "^NSEBANK"]
        /\ sleeps (trace w') = sleeps (trace w)).
Proof.
  intros Hprovider Hstorage. split.
  - destruct (bulk_download_stocks_spec env Hprovider Hstorage self save_path s e stock_list w)
      as (w' & Hrun & _ & Hsched).
    eexists _, w'. split; [exact Hrun|]. split; [exact Hsched|].
    unfold sleeps. by rewrite Hsched, omap_app, sleeps_paced.
  - destruct (download_market_indices_spec env Hprovider Hstorage self s e w)
      as (w' & Hrun & _ & Hsched).
    exists w'. split; [exact Hrun|]. split; [exact Hsched|].
    unfold sleeps. rewrite Hsched, omap_app, sleeps_fetches. by rewrite app_nil_r.
Qed.

Lemma delay_after_every_symbol_witness :
  (exists r w',
     bulk_download_stocks env_flaky sample_self ["GOOD.NS"; "EMPTY.NS"; "BAD.NS"]
       "data/nifty50" 0 10 empty_world = (Ret r, w')
     /\ schedule (trace w')
        = schedule (trace empty_world) ++ paced ["GOOD.NS"; "EMPTY.NS"; "BAD.NS"]
     /\ sleeps (trace w') = sleeps (trace empty_world) ++ repeat 500 3)
  /\ (exists w',
        download_market_indices env_flaky sample_self 0 10 empty_world = (Ret tt, w')
        /\ schedule (trace w')
           = schedule (trace empty_world)
             ++ [Fetch "^NSEI"; Fetch "^BSESN"; Fetch "^NSEBANK"]
        /\ sleeps (trace w') = sleeps (trace empty_world)).
Proof.
  exact (delay_after_every_symbol env_flaky sample_self
           ["GOOD.NS"; "EMPTY.NS"; "BAD.NS"] "data/nifty50" 0 10 empty_world
           env_flaky_provider env_flaky_storage).
Defined.

(** C8, as stated, fails: a data directory that cannot be created makes
    [main] raise, and the script still ends with exit status 0. *)
Lemma exit_status_zero_after_failure :
  exists msg w',
    main env_readonly empty_world = (Raise (Exception msg), w')
    /\ fst (script env_readonly empty_world) = 0.
Proof. eexists _, _. split; reflexivity. Qed.

(** C8, amended. An error that leaves [main] reaches the top-level handler,
    is logged at level ERROR with its message and [exc_info=True], and the
    script then runs off its end: the exit status is 0. *)
Theorem critical_error_logged_exit_zero
    (env : Env) (w w' : World) (msg : string) :
  main env w = (Raise (Exception msg), w') ->
  script env w
    = (0, emit (Log ERROR [Lit "Critical error during execution: "; FStr msg] true) w').
Proof.
  intros Hmain. unfold script, main_guard. rewrite Hmain. reflexivity.
Qed.

Lemma critical_error_logged_exit_zero_witness :
  script env_readonly empty_world
  = (0, emit (Log ERROR [Lit "Critical error during execution: ";
                         FStr "PermissionError: [Errno 13] Permission denied: 'data'"]
                true)
          (emit (MakeDirs "data") empty_world)).
Proof.
  exact (critical_error_logged_exit_zero env_readonly empty_world
           (emit (MakeDirs "data") empty_world)
           "PermissionError: [Errno 13] Permission denied: 'data'" eq_refl).
Defined.

(** C9. [run_full_download] returns stats whose [indices_downloaded] is 3,
    whatever the three index downloads did (written, empty or failed). *)
Theorem indices_downloaded_constant
    (env : Env) (self : StockDataDownloader) (years : Z) (w : World) :
  provider_catchable env ->
  storage_catchable env ->
  catalog_catchable env ->
  Z.abs (years * 365) <= Datetime.max_delta_days ->
  Datetime.in_range (now env - years * 365 * Datetime.us_per_day) = true ->
  exists stats w',
    run_full_download env self years w = (Ret stats, w')
    /\ stats !! "indices_downloaded" = Some (VInt 3).
Proof.
  intros Hp Hs Hc Hdays Hrange.
  destruct (run_full_download_total env self years w Hp Hs Hc Hdays Hrange)
    as (nifty & sensex & w' & Hrun).
  eexists _, w'. split; [exact Hrun|].
  apply final_stats_lookup.
Qed.

Lemma indices_downloaded_constant_witness :
  exists stats w',
    run_full_download env_flaky sample_self 10 empty_world = (Ret stats, w')
    /\ stats !! "indices_downloaded" = Some (VInt 3).
Proof.
  apply (indices_downloaded_constant env_flaky sample_self 10 empty_world
           env_flaky_provider env_flaky_storage env_flaky_catalog).
  - vm_compute. discriminate.
  - vm_compute. reflexivity.
Defined.

(** C10. The fallback list has 50 entries and 49 distinct symbols:
    ['HDFCLIFE.NS'] is there twice (positions 15 and 46), so the list is not
    duplicate-free. *)
Theorem fallback_nifty50_has_duplicate :
  length _get_fallback_nifty50 = 50%nat
  /\ length (remove_dups _get_fallback_nifty50) = 49%nat
  /\ count_occ string_dec _get_fallback_nifty50 "HDFCLIFE.NS" = 2%nat
  /\ _get_fallback_nifty50 !! 15%nat = Some "HDFCLIFE.NS"
  /\ _get_fallback_nifty50 !! 46%nat = Some "HDFCLIFE.NS"
  /\ ~ NoDup _get_fallback_nifty50.
Proof.
  split; [reflexivity|]. split; [vm_compute; reflexivity|].
  split; [vm_compute; reflexivity|]. split; [reflexivity|]. split; [reflexivity|].
  intros Hnd.
  pose proof (proj1 (NoDup_alt _get_fallback_nifty50) Hnd
                15%nat 46%nat "HDFCLIFE.NS" eq_refl eq_refl) as Hsame.
  discriminate Hsame.
Qed.

Set Warnings "-clear-no-such-hyp".

(** * Further properties *)

(** ** Growth of the world *)

Lemma grows_refl (w : World) : grows w w [] [].
Proof.
  unfold grows. cbn [omap length]. rewrite Nat.add_0_r, !app_nil_r.
  repeat split; try done. set_solver.
Qed.

Lemma grows_trans (w w1 w2 : World) (t1 t2 : list tick) (p1 p2 : list string) :
  grows w w1 t1 p1 -> grows w1 w2 t2 p2 -> grows w w2 (t1 ++ t2) (p1 ++ p2).
Proof.
  intros (Hr1 & Hs1 & Hw1 & Hd1 & Hf1) (Hr2 & Hs2 & Hw2 & Hd2 & Hf2).
  unfold grows. rewrite omap_app, length_app, Hr2, Hr1, Hs2, Hs1, Hw2, Hw1, Hd2, Hd1.
  rewrite <- !app_assoc. split; [lia|]. split; [done|]. split; [done|].
  split; [set_solver|].
  intros path Hpath. rewrite Hf2, Hf1; [done | set_solver | set_solver].
Qed.

Lemma grows_files_eq (w w' : World) (ticks : list tick) :
  grows w w' ticks [] -> files w' = files w.
Proof.
  intros (_ & _ & _ & _ & Hf). apply map_eq. intros path. apply Hf. set_solver.
Qed.

(** An event that is no request, pause or write leaves the observations as
    they are. *)
Lemma grows_emit (ev : event) (w : World) :
  tick_of ev = None -> write_of ev = None -> grows w (emit ev w) [] [].
Proof.
  intros Htick Hwrite. unfold grows. cbn [emit requests files trace].
  rewrite schedule_app, written_app. unfold schedule at 2, written at 2.
  cbn [omap list_omap length]. rewrite Htick, Hwrite, Nat.add_0_r.
  repeat split; try done. set_solver.
Qed.

Lemma grows_sleep (ms : Z) (w : World) : grows w (emit (Sleep ms) w) [Pause ms] [].
Proof.
  unfold grows. cbn [emit requests files trace]. rewrite schedule_app, written_app. cbn.
  rewrite app_nil_r, Nat.add_0_r. repeat split; try done. set_solver.
Qed.

Lemma grows_request (w : World) (symbol : string) (s e : Z) (adj : option bool) :
  grows w (mkWorld (files w) (S (requests w)) (trace w ++ [Request symbol s e adj]))
        [Fetch symbol] [].
Proof.
  unfold grows. cbn [requests files trace]. rewrite schedule_app, written_app. cbn.
  rewrite app_nil_r. repeat split; try done; [lia | set_solver].
Qed.

Lemma grows_write (w : World) (path : string) (data : DataFrame) :
  grows w (mkWorld (<[path := data]> (files w)) (requests w) (trace w ++ [WriteFile path]))
        [] [path].
Proof.
  unfold grows. cbn [requests files trace]. rewrite schedule_app, written_app. cbn.
  rewrite app_nil_r, Nat.add_0_r, dom_insert_L. repeat split; try done; [set_solver|].
  intros p Hp. apply lookup_insert_ne. set_solver.
Qed.

(** ** Quiet computations *)

Lemma quiet_ret {A : Type} (a : A) : quiet (ret a).
Proof. intros w r w' H. injection H as _ <-. apply grows_refl. Qed.

Lemma quiet_raise {A : Type} (e : py_exn) : quiet (@raise A e).
Proof. intros w r w' H. injection H as _ <-. apply grows_refl. Qed.

Lemma quiet_lift {A : Type} (r : outcome A) : quiet (lift r).
Proof. intros w r' w' H. injection H as _ <-. apply grows_refl. Qed.

Lemma quiet_bind {A B : Type} (m : M A) (k : A -> M B) :
  quiet m -> (forall a, quiet (k a)) -> quiet (bind m k).
Proof.
  intros Hm Hk w r w' H. unfold bind in H.
  destruct (m w) as [[a|ex] w1] eqn:Hrun.
  - exact (grows_trans w w1 w' [] [] [] [] (Hm w _ w1 Hrun) (Hk a w1 r w' H)).
  - injection H as _ <-. exact (Hm w _ w1 Hrun).
Qed.

Lemma quiet_try {A : Type} (body : M A) (handler : string -> M A) :
  quiet body -> (forall msg, quiet (handler msg)) ->
  quiet (try_except_Exception body handler).
Proof.
  intros Hb Hh w r w' H. unfold try_except_Exception in H.
  destruct (body w) as [[a|[msg| |msg]] w1] eqn:Hrun;
    try (injection H as _ <-; exact (Hb w _ w1 Hrun)).
  exact (grows_trans w w1 w' [] [] [] [] (Hb w _ w1 Hrun) (Hh msg w1 r w' H)).
Qed.

Lemma quiet_for_each {A : Type} (body : A -> M unit) (l : list A) :
  (forall x, quiet (body x)) -> quiet (for_each body l).
Proof.
  intros Hb. induction l as [|x rest IH]; cbn [for_each].
  - apply quiet_ret.
  - apply quiet_bind; [apply Hb | intros _; exact IH].
Qed.

Lemma quiet_logger (level : log_level) (msg : list fpart) : quiet (logger level msg).
Proof. intros w r w' H. injection H as _ <-. by apply grows_emit. Qed.

Lemma quiet_logger_exc_info (level : log_level) (msg : list fpart) :
  quiet (logger_exc_info level msg).
Proof. intros w r w' H. injection H as _ <-. by apply grows_emit. Qed.

Lemma quiet_os_makedirs (env : Env) (path : string) : quiet (os_makedirs env path).
Proof. intros w r w' H. injection H as _ <-. by apply grows_emit. Qed.

Lemma quiet_pd_read_csv (env : Env) (url : string) : quiet (pd_read_csv env url).
Proof. intros w r w' H. injection H as _ <-. by apply grows_emit. Qed.

Lemma quiet_dict_get (d : gmap string py_value) (key : string) : quiet (dict_get d key).
Proof. unfold dict_get. destruct (d !! key); [apply quiet_ret | apply quiet_raise]. Qed.

Lemma quiet_date_of (v : py_value) : quiet (date_of v).
Proof. destruct v; [apply quiet_raise | apply quiet_ret]. Qed.

Ltac quiet_steps :=
  repeat first
    [ apply quiet_ret | apply quiet_raise | apply quiet_lift | apply quiet_logger
    | apply quiet_logger_exc_info | apply quiet_os_makedirs | apply quiet_pd_read_csv
    | apply quiet_dict_get | apply quiet_date_of
    | apply quiet_for_each; intros ?
    | apply quiet_try; [|intros ?]
    | apply quiet_bind; [|intros ?] ].

Lemma quiet_phase_banner (title : string) : quiet (phase_banner title).
Proof. unfold phase_banner. quiet_steps. Qed.

Lemma quiet_print_summary (self : StockDataDownloader) (stats : gmap string py_value) :
  quiet (_print_summary self stats).
Proof. unfold _print_summary. quiet_steps; apply quiet_phase_banner. Qed.

Lemma quiet_get_nifty50_stocks (env : Env) (self : StockDataDownloader) :
  quiet (get_nifty50_stocks env self).
Proof. unfold get_nifty50_stocks. quiet_steps. Qed.

Lemma quiet_get_sensex30_stocks (self : StockDataDownloader) :
  quiet (get_sensex30_stocks self).
Proof. unfold get_sensex30_stocks. quiet_steps. Qed.

Lemma quiet_date_range (env : Env) (years : Z) : quiet (date_range env years).
Proof. unfold date_range, datetime_now. quiet_steps. Qed.

Lemma quiet_init (env : Env) (base : string) : quiet (__init__ env base).
Proof. unfold __init__, _setup_directories. quiet_steps. Qed.

(** ** What one download does, whatever the collaborators answer *)

Lemma grows_log_request (w : World) (level : log_level) (msg : list fpart)
    (symbol : string) (s e : Z) (adj : option bool) :
  grows w (mkWorld (files w) (S (requests w))
             ((trace w ++ [Log level msg false]) ++ [Request symbol s e adj]))
        [Fetch symbol] [].
Proof.
  exact (grows_trans w (emit (Log level msg false) w) _ [] [Fetch symbol] [] []
           (grows_emit (Log level msg false) w eq_refl eq_refl)
           (grows_request (emit (Log level msg false) w) symbol s e adj)).
Qed.

Lemma grows_then_log (w w1 : World) (ticks : list tick) (paths : list string)
    (level : log_level) (msg : list fpart) :
  grows w w1 ticks paths -> grows w (emit (Log level msg false) w1) ticks paths.
Proof.
  intros H.
  pose proof (grows_trans w w1 _ ticks [] paths [] H
                (grows_emit (Log level msg false) w1 eq_refl eq_refl)) as Hg.
  by rewrite !app_nil_r in Hg.
Qed.

Lemma download_single_stock_outcome (env : Env) (self : StockDataDownloader)
    (symbol : string) (s e : Z) (save_path : string) (w w' : World)
    (r : outcome bool) :
  download_single_stock env self symbol s e save_path w = (r, w') ->
  match r with
  | Ret true =>
      grows w w' [Fetch symbol] [stock_filename save_path symbol]
      /\ exists data,
           yf_download env (requests w) symbol s e (Some true) = Ret data
           /\ df_empty data = false
           /\ to_csv env (stock_filename save_path symbol) data = Ret tt
           /\ files w' !! stock_filename save_path symbol = Some data
  | Ret false => grows w w' [Fetch symbol] []
  | Raise ex => is_Exception ex = false /\ grows w w' [Fetch symbol] []
  end.
Proof.
  unfold download_single_stock, try_except_Exception, bind, logger, yf_download_call.
  cbn [emit requests files trace].
  pose proof (grows_log_request w INFO [Lit "Downloading data for "; FStr symbol]
                symbol s e (Some true)) as Hreq.
  destruct (yf_download env (requests w) symbol s e (Some true)) as [data|ex] eqn:Hfetch.
  - destruct (df_empty data) eqn:Hempty; cbn [negb].
    + intros H. injection H as <- <-. by apply grows_then_log.
    + unfold df_to_csv. cbn [files requests trace]. fold (stock_filename save_path symbol).
      destruct (to_csv env (stock_filename save_path symbol) data) as [[]|ex] eqn:Hwrite.
      * intros H. injection H as <- <-. split.
        -- apply grows_then_log.
           exact (grows_trans w _ _ [Fetch symbol] [] [] [stock_filename save_path symbol]
                    Hreq (grows_write _ (stock_filename save_path symbol) data)).
        -- exists data. repeat split; try done. cbn [emit files]. apply lookup_insert_eq.
      * destruct ex as [msg| |msg]; intros H; injection H as <- <-.
        -- by apply grows_then_log.
        -- done.
        -- done.
  - destruct ex as [msg| |msg]; intros H; injection H as <- <-.
    + by apply grows_then_log.
    + done.
    + done.
Qed.

(** One turn of the loop. *)
Lemma bulk_body_outcome (env : Env) (self : StockDataDownloader) (save_path : string)
    (s e total idx : Z) (symbol : string) (sc : Z) (w w' : World) (r : outcome Z) :
  bulk_body env self save_path s e total idx symbol sc w = (r, w') ->
  exists paths,
    Forall (fun path => path = stock_filename save_path symbol) paths
    /\ (length paths <= 1)%nat
    /\ match r with
       | Ret sc' =>
           grows w w' [Fetch symbol; Pause 500] paths
           /\ sc' = sc + Z.of_nat (length paths)
       | Raise ex => is_Exception ex = false /\ grows w w' [Fetch symbol] paths
       end.
Proof.
  unfold bulk_body, bind at 1, logger at 1. unfold bind at 1.
  set (w0 := emit _ w).
  assert (Hlog : grows w w0 [] []) by (by apply grows_emit).
  destruct (download_single_stock env self symbol s e save_path w0) as [[ok|ex] w1] eqn:Hrun;
    apply download_single_stock_outcome in Hrun.
  - unfold bind, time_sleep, ret. intros H. injection H as <- <-.
    destruct ok.
    + destruct Hrun as [Hg _]. exists [stock_filename save_path symbol].
      split; [by constructor|]. split; [cbn; lia|]. split; [|cbn; lia].
      exact (grows_trans w w0 _ [] _ [] _ Hlog
               (grows_trans w0 w1 _ _ _ _ [] Hg (grows_sleep 500 w1))).
    + exists []. split; [constructor|]. split; [cbn; lia|]. split; [|cbn; lia].
      exact (grows_trans w w0 _ [] _ [] _ Hlog
               (grows_trans w0 w1 _ _ _ _ [] Hrun (grows_sleep 500 w1))).
  - intros H. injection H as <- <-. destruct Hrun as [Hex Hg].
    exists []. split; [constructor|]. split; [cbn; lia|]. split; [done|].
    exact (grows_trans w w0 _ [] _ [] _ Hlog Hg).
Qed.

Lemma bulk_loop_outcome (env : Env) (self : StockDataDownloader) (save_path : string)
    (s e total : Z) (stocks : list string) :
  forall idx sc w w' r,
    bulk_loop env self save_path s e total idx stocks sc w = (r, w') ->
    exists paths,
      Forall (fun path => exists symbol,
                symbol ∈ stocks /\ path = stock_filename save_path symbol) paths
      /\ (length paths <= length stocks)%nat
      /\ match r with
         | Ret sc' =>
             grows w w' (paced stocks) paths /\ sc' = sc + Z.of_nat (length paths)
         | Raise ex =>
             is_Exception ex = false
             /\ exists k symbol,
                  stocks !! k = Some symbol
                  /\ grows w w' (paced (take k stocks) ++ [Fetch symbol]) paths
         end.
Proof.
  induction stocks as [|stock rest IH]; intros idx sc w w' r H.
  - injection H as <- <-. exists []. split; [constructor|]. split; [done|].
    split; [apply grows_refl | cbn; lia].
  - cbn [bulk_loop] in H. unfold bind in H.
    destruct (bulk_body env self save_path s e total idx stock sc w) as [[sc1|ex] w1] eqn:Hbody;
      apply bulk_body_outcome in Hbody; destruct Hbody as (p1 & Hp1 & Hl1 & Hbody).
    + destruct Hbody as [Hg1 ->].
      apply IH in H. destruct H as (p2 & Hp2 & Hl2 & Hrest).
      exists (p1 ++ p2). split.
      { apply Forall_app. split.
        - eapply Forall_impl; [exact Hp1|]. intros path ->. exists stock. split; [left|done].
        - eapply Forall_impl; [exact Hp2|]. intros path (symbol & Hin & ->).
          exists symbol. split; [by right|done]. }
      split; [rewrite length_app; cbn [length]; lia|].
      destruct r as [sc'|ex].
      * destruct Hrest as [Hg2 ->]. split.
        -- exact (grows_trans w w1 w' _ _ _ _ Hg1 Hg2).
        -- rewrite length_app. lia.
      * destruct Hrest as (Hex & k & symbol & Hk & Hg2). split; [done|].
        exists (S k), symbol. split; [exact Hk|].
        exact (grows_trans w w1 w' _ _ _ _ Hg1 Hg2).
    + injection H as <- <-. destruct Hbody as [Hex Hg].
      exists p1. split.
      { eapply Forall_impl; [exact Hp1|]. intros path ->. exists stock. split; [left|done]. }
      split; [cbn [length]; lia|].
      split; [done|]. exists O, stock. split; [done|]. exact Hg.
Qed.

Lemma bulk_download_stocks_outcome (env : Env) (self : StockDataDownloader)
    (stock_list : list string) (save_path : string) (s e : Z) (w w' : World)
    (r : outcome (Z * Z)) :
  bulk_download_stocks env self stock_list save_path s e w = (r, w') ->
  exists paths,
    Forall (fun path => exists symbol,
              symbol ∈ stock_list /\ path = stock_filename save_path symbol) paths
    /\ (length paths <= length stock_list)%nat
    /\ match r with
       | Ret tally =>
           grows w w' (paced stock_list) paths
           /\ tally = (Z.of_nat (length paths), Z.of_nat (length stock_list))
       | Raise ex =>
           is_Exception ex = false
           /\ exists k symbol,
                stock_list !! k = Some symbol
                /\ grows w w' (paced (take k stock_list) ++ [Fetch symbol]) paths
       end.
Proof.
  unfold bulk_download_stocks, bind at 1, logger at 1. unfold bind at 1.
  set (w0 := emit _ w).
  assert (Hlog : grows w w0 [] []) by (by apply grows_emit).
  intros H.
  destruct (bulk_loop env self save_path s e (Z.of_nat (length stock_list)) 1 stock_list 0 w0)
    as [[sc|ex] w1] eqn:Hloop;
    apply bulk_loop_outcome in Hloop; destruct Hloop as (paths & Hpaths & Hlen & Hloop);
    exists paths; (split; [exact Hpaths|]); (split; [exact Hlen|]).
  - unfold bind, logger, ret in H. injection H as <- <-.
    destruct Hloop as [Hg ->]. split; [|done].
    apply grows_then_log. exact (grows_trans w w0 w1 [] _ [] _ Hlog Hg).
  - injection H as <- <-.
    destruct Hloop as (Hex & k & symbol & Hk & Hg). split; [done|].
    exists k, symbol. split; [done|]. exact (grows_trans w w0 w1 [] _ [] _ Hlog Hg).
Qed.

(** ** What the index phase does, whatever the collaborators answer *)

Lemma index_body_outcome (env : Env) (self : StockDataDownloader) (s e : Z)
    (entry : string * string) (w w' : World) (r : outcome unit) :
  index_body env self s e entry w = (r, w') ->
  exists paths,
    Forall (fun path => path = index_filename self (snd entry)) paths
    /\ (length paths <= 1)%nat
    /\ grows w w' [Fetch (fst entry)] paths
    /\ match r with
       | Ret _ => True
       | Raise ex => is_Exception ex = false
       end.
Proof.
  unfold index_body, try_except_Exception, bind, logger, yf_download_call.
  cbn [emit requests files trace].
  pose proof (grows_log_request w INFO
                [Lit "Downloading "; FStr (snd entry); Lit " index data"]
                (fst entry) s e None) as Hreq.
  destruct (yf_download env (requests w) (fst entry) s e None) as [data|ex].
  - destruct (df_empty data); cbn [negb].
    + intros H. injection H as <- <-. exists []. split; [constructor|].
      split; [cbn; lia|]. split; [by apply grows_then_log | done].
    + unfold df_to_csv. cbn [files requests trace]. fold (index_filename self (snd entry)).
      destruct (to_csv env (index_filename self (snd entry)) data) as [[]|ex].
      * intros H. injection H as <- <-. exists [index_filename self (snd entry)].
        split; [by constructor|]. split; [cbn; lia|]. split; [|done].
        apply grows_then_log.
        exact (grows_trans w _ _ [Fetch (fst entry)] [] [] [index_filename self (snd entry)]
                 Hreq (grows_write _ (index_filename self (snd entry)) data)).
      * destruct ex as [msg| |msg]; intros H; injection H as <- <-;
          exists []; (split; [constructor|]); (split; [cbn; lia|]); (split; [|done]);
          [by apply grows_then_log | done | done].
  - destruct ex as [msg| |msg]; intros H; injection H as <- <-;
      exists []; (split; [constructor|]); (split; [cbn; lia|]); (split; [|done]);
      [by apply grows_then_log | done | done].
Qed.

Lemma index_loop_outcome (env : Env) (self : StockDataDownloader) (s e : Z)
    (entries : list (string * string)) :
  forall w w' r,
    for_each (index_body env self s e) entries w = (r, w') ->
    exists paths n,
      Forall (fun path => exists entry,
                entry ∈ entries /\ path = index_filename self (snd entry)) paths
      /\ (length paths <= n)%nat
      /\ grows w w' (map Fetch (map fst (take n entries))) paths
      /\ match r with
         | Ret _ => n = length entries
         | Raise ex => is_Exception ex = false /\ (0 < n <= length entries)%nat
         end.
Proof.
  induction entries as [|entry rest IH]; intros w w' r H.
  - injection H as <- <-. exists [], O. split; [constructor|]. split; [done|].
    split; [apply grows_refl | done].
  - cbn [for_each] in H. unfold bind in H.
    destruct (index_body env self s e entry w) as [[[]|ex] w1] eqn:Hbody;
      apply index_body_outcome in Hbody; destruct Hbody as (p1 & Hp1 & Hl1 & Hg1 & Hex).
    + apply IH in H. destruct H as (p2 & n & Hp2 & Hl2 & Hg2 & Hr).
      exists (p1 ++ p2), (S n). split.
      { apply Forall_app. split.
        - eapply Forall_impl; [exact Hp1|]. intros path ->. exists entry. split; [left|done].
        - eapply Forall_impl; [exact Hp2|]. intros path (x & Hin & ->).
          exists x. split; [by right|done]. }
      split; [rewrite length_app; lia|].
      split; [exact (grows_trans w w1 w' _ _ _ _ Hg1 Hg2)|].
      destruct r as [u|ex]; cbn [length]; [lia|]. destruct Hr as [? ?]. split; [done|lia].
    + injection H as <- <-. exists p1, 1%nat. split.
      { eapply Forall_impl; [exact Hp1|]. intros path ->. exists entry. split; [left|done]. }
      split; [exact Hl1|]. split; [exact Hg1|]. split; [done|]. cbn [length]. lia.
Qed.

Lemma download_market_indices_outcome (env : Env) (self : StockDataDownloader)
    (s e : Z) (w w' : World) (r : outcome unit) :
  download_market_indices env self s e w = (r, w') ->
  exists paths n,
    Forall (fun path => exists entry,
              entry ∈ indices_config /\ path = index_filename self (snd entry)) paths
    /\ (length paths <= n)%nat
    /\ grows w w' (map Fetch (map fst (take n indices_config))) paths
    /\ match r with
       | Ret _ => n = 3%nat
       | Raise ex => is_Exception ex = false /\ (0 < n <= 3)%nat
       end.
Proof.
  unfold download_market_indices, bind, logger.
  set (w0 := emit _ w).
  assert (Hlog : grows w w0 [] []) by (by apply grows_emit).
  intros H. apply index_loop_outcome in H. destruct H as (paths & n & Hp & Hl & Hg & Hr).
  exists paths, n. split; [exact Hp|]. split; [exact Hl|]. split; [|exact Hr].
  exact (grows_trans w w0 w' [] _ [] _ Hlog Hg).
Qed.

(** ** The catalogue, the directories and the summary *)

Lemma get_nifty50_stocks_outcome (env : Env) (self : StockDataDownloader)
    (w w' : World) (r : outcome (list string)) :
  get_nifty50_stocks env self w = (r, w') ->
  match r with
  | Ret symbols =>
      (catalog_fetch_fails env /\ symbols = _get_fallback_nifty50)
      \/ (exists df cells,
            read_csv env nse_url = Ret df
            /\ column_lookup "Symbol" (df_columns df) = Some cells
            /\ symbols = map (fun ticker => String.append ticker ".NS") cells)
  | Raise ex => is_Exception ex = false /\ read_csv env nse_url = Raise ex
  end.
Proof.
  unfold get_nifty50_stocks, try_except_Exception, bind, pd_read_csv, lift,
    df_getitem_tolist, logger, ret.
  destruct (read_csv env nse_url) as [df|ex] eqn:Hread.
  - destruct (column_lookup "Symbol" (df_columns df)) as [cells|] eqn:Hcol;
      intros H; injection H as <- _.
    + right. by exists df, cells.
    + left. split; [|done]. right. by exists df.
  - destruct ex as [msg| |msg]; intros H; injection H as <- _.
    + left. split; [|done]. left. by exists msg.
    + done.
    + done.
Qed.

Lemma get_sensex30_stocks_result (self : StockDataDownloader) (w w' : World)
    (r : outcome (list string)) :
  get_sensex30_stocks self w = (r, w') -> r = Ret sensex_constituents.
Proof. intros H. by injection H as <- _. Qed.

Lemma setup_directories_outcome (env : Env) (dirs : list string) :
  forall w w' r,
    for_each (os_makedirs env) dirs w = (r, w') ->
    match r with
    | Ret _ => Forall (fun dir => exists u, makedirs env dir = Ret u) dirs
    | Raise ex => exists dir, dir ∈ dirs /\ makedirs env dir = Raise ex
    end.
Proof.
  induction dirs as [|dir rest IH]; intros w w' r H.
  - injection H as <- _. constructor.
  - cbn [for_each] in H. unfold bind, os_makedirs at 1 in H.
    destruct (makedirs env dir) as [u|ex] eqn:Hdir.
    + apply IH in H. destruct r as [v|ex].
      * constructor; [by exists u | exact H].
      * destruct H as (d & Hin & Hd). exists d. split; [by right | exact Hd].
    + injection H as <- _. exists dir. split; [left | exact Hdir].
Qed.

Lemma init_outcome (env : Env) (base : string) (w w' : World)
    (r : outcome StockDataDownloader) :
  __init__ env base w = (r, w') ->
  match r with
  | Ret self =>
      self = mkDownloader base (path_join base "nifty50") (path_join base "sensex30")
      /\ Forall (fun dir => exists u, makedirs env dir = Ret u)
                [base; path_join base "nifty50"; path_join base "sensex30"]
  | Raise ex =>
      exists dir,
        dir ∈ [base; path_join base "nifty50"; path_join base "sensex30"]
        /\ makedirs env dir = Raise ex
  end.
Proof.
  unfold __init__, _setup_directories. cbn [base_path nifty_path sensex_path].
  unfold bind at 1. unfold bind at 1.
  destruct (for_each (os_makedirs env)
              [base; path_join base "nifty50"; path_join base "sensex30"] w)
    as [[u|ex] w1] eqn:Hdirs; apply setup_directories_outcome in Hdirs.
  - unfold logger, ret. intros H. injection H as <- _. done.
  - intros H. injection H as <- _. exact Hdirs.
Qed.

Lemma date_range_outcome (env : Env) (years : Z) (w w' : World) (r : outcome (Z * Z)) :
  date_range env years w = (r, w') ->
  w' = w
  /\ if (Z.abs (years * 365) <=? Datetime.max_delta_days)
        && Datetime.in_range (now env - years * 365 * Datetime.us_per_day)
     then r = Ret (now env - years * 365 * Datetime.us_per_day, now env)
     else exists msg, r = Raise (Exception msg).
Proof.
  unfold date_range, datetime_now, bind, ret, lift, Datetime.timedelta_days, Datetime.sub.
  destruct (Z.abs (years * 365) <=? Datetime.max_delta_days); cbn [andb].
  - destruct (Datetime.in_range (now env - years * 365 * Datetime.us_per_day));
      intros H; injection H as <- <-; eauto.
  - intros H; injection H as <- <-; eauto.
Qed.

(** ** The whole run, whatever the collaborators answer *)

(** Chains the growth facts of consecutive steps, starting from [Hacc]. *)
Ltac chain_grows Hacc :=
  repeat match type of Hacc with
         | grows ?w0 ?w1 _ _ =>
             match goal with
             | Hg : grows w1 ?w2 _ _ |- _ =>
                 tryif constr_eq Hg Hacc then fail else
                   (let Hn := fresh "Hchain" in
                    pose proof (grows_trans w0 w1 w2 _ _ _ _ Hacc Hg) as Hn;
                    clear Hacc Hg; rename Hn into Hacc)
             end
         end.

Ltac digest_quiet :=
  repeat match goal with
         | Hq : phase_banner _ _ = (_, _) |- _ => apply quiet_phase_banner in Hq
         | Hq : logger _ _ _ = (_, _) |- _ => apply quiet_logger in Hq
         | Hq : _print_summary _ _ _ = (_, _) |- _ => apply quiet_print_summary in Hq
         end.

Lemma run_full_download_outcome (env : Env) (self : StockDataDownloader) (years : Z)
    (w w' : World) (stats : gmap string py_value) :
  run_full_download env self years w = (Ret stats, w') ->
  exists nifty_stocks p_idx p_nifty p_sensex,
    ((catalog_fetch_fails env /\ nifty_stocks = _get_fallback_nifty50)
     \/ (exists df cells,
           read_csv env nse_url = Ret df
           /\ column_lookup "Symbol" (df_columns df) = Some cells
           /\ nifty_stocks = map (fun ticker => String.append ticker ".NS") cells))
    /\ Forall (fun path => exists entry,
                 entry ∈ indices_config /\ path = index_filename self (snd entry)) p_idx
    /\ Forall (fun path => exists symbol,
                 symbol ∈ nifty_stocks
                 /\ path = stock_filename (nifty_path self) symbol) p_nifty
    /\ Forall (fun path => exists symbol,
                 symbol ∈ sensex_constituents
                 /\ path = stock_filename (sensex_path self) symbol) p_sensex
    /\ (length p_idx <= 3)%nat
    /\ (length p_nifty <= length nifty_stocks)%nat
    /\ (length p_sensex <= length sensex_constituents)%nat
    /\ grows w w'
         (map Fetch (map fst indices_config)
            ++ paced nifty_stocks ++ paced sensex_constituents)
         (p_idx ++ p_nifty ++ p_sensex)
    /\ stats = final_stats (now env - years * 365 * Datetime.us_per_day) (now env)
                 (Z.of_nat (length p_nifty), Z.of_nat (length nifty_stocks))
                 (Z.of_nat (length p_sensex), Z.of_nat (length sensex_constituents)).
Proof.
  unfold run_full_download. intros H. repeat inv_bind H.
  injection H as <- <-.
  match goal with
  | Hd : date_range _ _ _ = _ |- _ => apply date_range_inv in Hd; destruct Hd as [-> ->]
  end.
  cbn [fst snd] in *.
  match goal with
  | Hi : download_market_indices _ _ _ _ _ = _ |- _ =>
      apply download_market_indices_outcome in Hi;
      destruct Hi as (p_idx & n & Hp_idx & Hl_idx & Hg_idx & ->)
  end.
  match goal with
  | Hn : get_nifty50_stocks _ _ ?w1 = (Ret ?l, ?w2) |- _ =>
      pose proof (quiet_get_nifty50_stocks env self w1 _ w2 Hn) as Hq_nifty;
      apply get_nifty50_stocks_outcome in Hn; rename Hn into Hsource; rename l into nifty_stocks
  end.
  match goal with
  | Hs : get_sensex30_stocks _ ?w1 = (Ret ?l, ?w2) |- _ =>
      pose proof (quiet_get_sensex30_stocks self w1 _ w2 Hs) as Hq_sensex;
      apply get_sensex30_stocks_result in Hs; injection Hs as ->
  end.
  match goal with
  | Hb : bulk_download_stocks _ _ nifty_stocks _ _ _ _ = _ |- _ =>
      apply bulk_download_stocks_outcome in Hb;
      destruct Hb as (p_nifty & Hp_nifty & Hl_nifty & Hg_nifty & ->)
  end.
  match goal with
  | Hb : bulk_download_stocks _ _ sensex_constituents _ _ _ _ = _ |- _ =>
      apply bulk_download_stocks_outcome in Hb;
      destruct Hb as (p_sensex & Hp_sensex & Hl_sensex & Hg_sensex & ->)
  end.
  digest_quiet.
  pose proof (grows_refl w) as Hacc. chain_grows Hacc.
  cbn [app] in Hacc. rewrite ?app_nil_r in Hacc.
  exists nifty_stocks, p_idx, p_nifty, p_sensex.
  split; [exact Hsource|]. split; [exact Hp_idx|]. split; [exact Hp_nifty|].
  split; [exact Hp_sensex|]. split; [exact Hl_idx|]. split; [exact Hl_nifty|].
  split; [exact Hl_sensex|]. split; [|reflexivity].
  rewrite <- !app_assoc in Hacc. exact Hacc.
Qed.

(** ** Nothing but errors, when the collaborators raise nothing else *)

Lemma errors_ret {A : Type} (a : A) : raises_only_Exception (ret a).
Proof. intros w ex w' H. discriminate H. Qed.

Lemma errors_raise {A : Type} (msg : string) :
  raises_only_Exception (@raise A (Exception msg)).
Proof. intros w ex w' H. by injection H as <- _. Qed.

Lemma errors_lift {A : Type} (r : outcome A) :
  catchable r -> raises_only_Exception (lift r).
Proof. intros Hr w ex w' H. injection H as -> _. exact Hr. Qed.

Lemma errors_bind {A B : Type} (m : M A) (k : A -> M B) :
  raises_only_Exception m -> (forall a, raises_only_Exception (k a)) ->
  raises_only_Exception (bind m k).
Proof.
  intros Hm Hk w ex w' H. unfold bind in H.
  destruct (m w) as [[a|ex1] w1] eqn:Hrun.
  - exact (Hk a w1 ex w' H).
  - injection H as <- <-. exact (Hm w ex1 w1 Hrun).
Qed.

Lemma errors_try {A : Type} (body : M A) (handler : string -> M A) :
  raises_only_Exception body -> (forall msg, raises_only_Exception (handler msg)) ->
  raises_only_Exception (try_except_Exception body handler).
Proof.
  intros Hb Hh w ex w' H. unfold try_except_Exception in H.
  destruct (body w) as [[a|[msg| |msg]] w1] eqn:Hrun; try discriminate H.
  - exact (Hh msg w1 ex w' H).
  - injection H as <- <-. exact (Hb w _ w1 Hrun).
  - injection H as <- <-. exact (Hb w _ w1 Hrun).
Qed.

Lemma errors_for_each {A : Type} (body : A -> M unit) (l : list A) :
  (forall x, raises_only_Exception (body x)) -> raises_only_Exception (for_each body l).
Proof.
  intros Hb. induction l as [|x rest IH]; cbn [for_each].
  - apply errors_ret.
  - apply errors_bind; [apply Hb | intros _; exact IH].
Qed.

Lemma errors_logger (level : log_level) (msg : list fpart) :
  raises_only_Exception (logger level msg).
Proof. intros w ex w' H. discriminate H. Qed.

Lemma errors_time_sleep (ms : Z) : raises_only_Exception (time_sleep ms).
Proof. intros w ex w' H. discriminate H. Qed.

Lemma errors_dict_get (d : gmap string py_value) (key : string) :
  raises_only_Exception (dict_get d key).
Proof. unfold dict_get. destruct (d !! key); [apply errors_ret | apply errors_raise]. Qed.

Lemma errors_date_of (v : py_value) : raises_only_Exception (date_of v).
Proof. destruct v; [apply errors_raise | apply errors_ret]. Qed.

Lemma catchable_timedelta_days (d : Z) : catchable (Datetime.timedelta_days d).
Proof. unfold Datetime.timedelta_days. by destruct (Z.abs d <=? Datetime.max_delta_days). Qed.

Lemma catchable_datetime_sub (dt td : Z) : catchable (Datetime.sub dt td).
Proof. unfold Datetime.sub. by destruct (Datetime.in_range (dt - td)). Qed.

Lemma catchable_getitem (df : DataFrame) (col : string) :
  catchable (df_getitem_tolist df col).
Proof. unfold df_getitem_tolist. by destruct (column_lookup col (df_columns df)). Qed.

Section OnlyErrors.
Variable env : Env.
Hypothesis Hdirs : directories_catchable env.
Hypothesis Hcatalog : catalog_catchable env.
Hypothesis Hprovider : provider_catchable env.
Hypothesis Hstorage : storage_catchable env.

Lemma errors_os_makedirs (path : string) : raises_only_Exception (os_makedirs env path).
Proof.
  intros w ex w' H. injection H as Hr _. pose proof (Hdirs path) as Hc.
  by rewrite Hr in Hc.
Qed.

Lemma errors_pd_read_csv (url : string) : raises_only_Exception (pd_read_csv env url).
Proof.
  intros w ex w' H. injection H as Hr _. pose proof (Hcatalog url) as Hc.
  by rewrite Hr in Hc.
Qed.

Lemma errors_yf_download_call (symbol : string) (s e : Z) (adj : option bool) :
  raises_only_Exception (yf_download_call env symbol s e adj).
Proof.
  intros w ex w' H. injection H as Hr _.
  pose proof (Hprovider (requests w) symbol s e adj) as Hc. by rewrite Hr in Hc.
Qed.

Lemma errors_df_to_csv (data : DataFrame) (filename : string) :
  raises_only_Exception (df_to_csv env data filename).
Proof.
  intros w ex w' H. unfold df_to_csv in H. pose proof (Hstorage filename data) as Hc.
  destruct (to_csv env filename data) as [u|ex1]; [discriminate H|].
  by injection H as <- _.
Qed.

Ltac errors_steps :=
  repeat first
    [ apply errors_ret | apply errors_raise | apply errors_logger | apply errors_time_sleep
    | apply errors_dict_get | apply errors_date_of
    | apply errors_os_makedirs | apply errors_pd_read_csv | apply errors_yf_download_call
    | apply errors_df_to_csv
    | apply errors_lift;
      first [ apply catchable_timedelta_days | apply catchable_datetime_sub
            | apply catchable_getitem ]
    | apply errors_for_each; intros ?
    | apply errors_try; [|intros ?]
    | apply errors_bind; [|intros ?]
    | match goal with
      | |- raises_only_Exception (if ?b then _ else _) => destruct b
      end ].

Lemma errors_download_single_stock (self : StockDataDownloader) (symbol : string)
    (s e : Z) (save_path : string) :
  raises_only_Exception (download_single_stock env self symbol s e save_path).
Proof. unfold download_single_stock. errors_steps. Qed.

Lemma errors_bulk_loop (self : StockDataDownloader) (save_path : string)
    (s e total : Z) (stocks : list string) :
  forall idx sc,
    raises_only_Exception (bulk_loop env self save_path s e total idx stocks sc).
Proof.
  induction stocks as [|stock rest IH]; intros idx sc; cbn [bulk_loop].
  - apply errors_ret.
  - apply errors_bind; [|intros sc1; apply IH].
    unfold bulk_body. errors_steps.
Qed.

Lemma errors_main : raises_only_Exception (main env).
Proof.
  unfold main, __init__, _setup_directories, run_full_download, date_range, datetime_now,
    download_market_indices, index_body, get_nifty50_stocks,
    get_sensex30_stocks, bulk_download_stocks, _print_summary, phase_banner.
  errors_steps; apply errors_bulk_loop.
Qed.

End OnlyErrors.

(** ** Suffixes of strings *)

Lemma length_append (a b : string) :
  String.length (String.append a b) = (String.length a + String.length b)%nat.
Proof.
  induction a as [|c a IH]; [done|].
  rewrite append_cons. cbn [String.length]. by rewrite IH.
Qed.

Lemma substring_whole (b : string) : String.substring 0 (String.length b) b = b.
Proof. induction b as [|c b IH]; [done|]. cbn [String.length String.substring]. by rewrite IH. Qed.

Lemma substring_append_prefix (a b : string) :
  String.substring 0 (String.length a) (String.append a b) = a.
Proof.
  induction a as [|c a IH]; [by destruct b|].
  rewrite append_cons. cbn [String.length String.substring]. by rewrite IH.
Qed.

Lemma substring_append_suffix (a b : string) :
  String.substring (String.length a) (String.length b) (String.append a b) = b.
Proof.
  induction a as [|c a IH]; [apply substring_whole|].
  rewrite append_cons. cbn [String.length String.substring]. exact IH.
Qed.

Lemma endswith_append (a suffix : string) :
  PyStr.endswith (String.append a suffix) suffix = true.
Proof.
  unfold PyStr.endswith. rewrite length_append.
  replace (String.length suffix <=? String.length a + String.length suffix)%nat
    with true by (symmetry; apply Nat.leb_le; lia).
  replace (String.length a + String.length suffix - String.length suffix)%nat
    with (String.length a) by lia.
  rewrite substring_append_suffix. apply String.eqb_refl.
Qed.

Lemma remove_exchange_suffix_append (a suffix : string) :
  remove_exchange_suffix suffix (String.append a suffix) = a.
Proof.
  unfold remove_exchange_suffix. rewrite endswith_append, length_append.
  replace (String.length a + String.length suffix - String.length suffix)%nat
    with (String.length a) by lia.
  apply substring_append_prefix.
Qed.

(** ** From growth to the observations of the claims *)

Lemma grows_attempted (w w' : World) (ticks : list tick) (paths : list string) :
  grows w w' ticks paths ->
  attempted (trace w') = attempted (trace w) ++ omap fetch_of ticks.
Proof. intros (_ & Hs & _). unfold attempted. by rewrite Hs, omap_app. Qed.

Lemma grows_sleeps (w w' : World) (ticks : list tick) (paths : list string) :
  grows w w' ticks paths ->
  sleeps (trace w') = sleeps (trace w) ++ omap pause_of ticks.
Proof. intros (_ & Hs & _). unfold sleeps. by rewrite Hs, omap_app. Qed.

Lemma grows_quiet_observations (w w' : World) :
  grows w w' [] [] ->
  requests w' = requests w
  /\ files w' = files w
  /\ schedule (trace w') = schedule (trace w)
  /\ written (trace w') = written (trace w).
Proof.
  intros Hg. pose proof (grows_files_eq w w' [] Hg) as Hf.
  destruct Hg as (Hr & Hs & Hw & _). cbn in Hr.
  rewrite app_nil_r in Hs, Hw. repeat split; try done. lia.
Qed.

(** ** Further properties of the catalogue and of one download *)

(** X1. When the remote table is read and has a ["Symbol"] column,
    [get_nifty50_stocks] returns its cells in order, each with [".NS"]
    appended (so every symbol ends with [".NS"] and there is one per row);
    the fallback list is not used, nothing is requested from the provider
    and no file is written. *)
Theorem nifty50_live_list
    (env : Env) (self : StockDataDownloader) (w : World)
    (df : DataFrame) (cells : list string) :
  read_csv env nse_url = Ret df ->
  column_lookup "Symbol" (df_columns df) = Some cells ->
  exists symbols w',
    get_nifty50_stocks env self w = (Ret symbols, w')
    /\ symbols = map (fun ticker => String.append ticker ".NS") cells
    /\ length symbols = length cells
    /\ Forall (fun symbol => PyStr.endswith symbol ".NS" = true) symbols
    /\ requests w' = requests w
    /\ files w' = files w.
Proof.
  intros Hread Hcol.
  destruct (get_nifty50_stocks env self w) as [r w'] eqn:Hrun.
  pose proof (quiet_get_nifty50_stocks env self w r w' Hrun) as Hq.
  apply grows_quiet_observations in Hq. destruct Hq as (Hreq & Hfiles & _).
  revert Hrun.
  unfold get_nifty50_stocks, try_except_Exception, bind, pd_read_csv, lift,
    df_getitem_tolist, logger, ret.
  rewrite Hread, Hcol. intros Hrun. injection Hrun as <- _.
  eexists _, w'. split; [reflexivity|]. split; [reflexivity|].
  split; [apply length_map|]. split; [|done].
  apply Forall_map, Forall_forall. intros ticker _. apply endswith_append.
Qed.

Lemma nifty50_live_list_witness :
  exists symbols w',
    get_nifty50_stocks env_live sample_self empty_world = (Ret symbols, w')
    /\ symbols = map (fun ticker => String.append ticker ".NS") ["RELIANCE"; "M&M"]
    /\ length symbols = 2%nat
    /\ Forall (fun symbol => PyStr.endswith symbol ".NS" = true) symbols
    /\ requests w' = requests empty_world
    /\ files w' = files empty_world.
Proof.
  exact (nifty50_live_list env_live sample_self empty_world
           (mkDataFrame ["0"; "1"]
              [("Company Name", ["Reliance Industries Ltd."; "Mahindra & Mahindra Ltd."]);
               ("Symbol", ["RELIANCE"; "M&M"])])
           ["RELIANCE"; "M&M"] eq_refl eq_refl).
Defined.

(** X2. However the read of the remote list ends, [get_nifty50_stocks]
    requests nothing from the provider, sleeps never and writes no file; it
    returns the fallback list or the suffixed cells of the ["Symbol"]
    column, and the only thing it can raise is what [pd.read_csv] raised
    when that is not an [Exception]. *)
Theorem nifty50_outcome
    (env : Env) (self : StockDataDownloader) (w w' : World)
    (r : outcome (list string)) :
  get_nifty50_stocks env self w = (r, w') ->
  requests w' = requests w
  /\ files w' = files w
  /\ schedule (trace w') = schedule (trace w)
  /\ written (trace w') = written (trace w)
  /\ match r with
     | Ret symbols =>
         symbols = _get_fallback_nifty50
         \/ exists df cells,
              read_csv env nse_url = Ret df
              /\ column_lookup "Symbol" (df_columns df) = Some cells
              /\ symbols = map (fun ticker => String.append ticker ".NS") cells
     | Raise ex => is_Exception ex = false /\ read_csv env nse_url = Raise ex
     end.
Proof.
  intros Hrun.
  pose proof (quiet_get_nifty50_stocks env self w r w' Hrun) as Hq.
  apply grows_quiet_observations in Hq. destruct Hq as (Hreq & Hfiles & Hs & Hw).
  repeat (split; [done|]).
  apply get_nifty50_stocks_outcome in Hrun. destruct r as [symbols|ex]; [|exact Hrun].
  destruct Hrun as [[_ ->]|Hlive]; [by left | by right].
Qed.

Lemma nifty50_outcome_witness :
  requests (snd (get_nifty50_stocks env_interrupted sample_self empty_world))
    = requests empty_world
  /\ files (snd (get_nifty50_stocks env_interrupted sample_self empty_world))
     = files empty_world
  /\ schedule (trace (snd (get_nifty50_stocks env_interrupted sample_self empty_world)))
     = schedule (trace empty_world)
  /\ written (trace (snd (get_nifty50_stocks env_interrupted sample_self empty_world)))
     = written (trace empty_world)
  /\ (_get_fallback_nifty50 = _get_fallback_nifty50
      \/ exists df cells,
           read_csv env_interrupted nse_url = Ret df
           /\ column_lookup "Symbol" (df_columns df) = Some cells
           /\ _get_fallback_nifty50
              = map (fun ticker => String.append ticker ".NS") cells).
Proof.
  exact (nifty50_outcome env_interrupted sample_self empty_world
           (snd (get_nifty50_stocks env_interrupted sample_self empty_world))
           (Ret _get_fallback_nifty50) eq_refl).
Defined.

(** X3. For a ticker without a dot, the filename stem of the symbol with
    [".NS"] or [".BO"] appended is the ticker again, which is also what
    removing the trailing suffix gives. *)
Theorem stem_of_dotless_ticker (ticker : string) :
  PyStr.contains_char "." ticker = false ->
  clean_symbol (String.append ticker ".NS") = ticker
  /\ clean_symbol (String.append ticker ".BO") = ticker
  /\ clean_symbol (String.append ticker ".NS")
     = remove_exchange_suffix ".NS" (String.append ticker ".NS")
  /\ clean_symbol (String.append ticker ".BO")
     = remove_exchange_suffix ".BO" (String.append ticker ".BO").
Proof.
  intros Hdot. destruct (clean_symbol_dotless ticker Hdot) as [Hns Hbo].
  rewrite !remove_exchange_suffix_append. done.
Qed.

Lemma stem_of_dotless_ticker_witness :
  clean_symbol (String.append "BAJAJ-AUTO" ".NS") = "BAJAJ-AUTO"
  /\ clean_symbol (String.append "BAJAJ-AUTO" ".BO") = "BAJAJ-AUTO"
  /\ clean_symbol (String.append "BAJAJ-AUTO" ".NS")
     = remove_exchange_suffix ".NS" (String.append "BAJAJ-AUTO" ".NS")
  /\ clean_symbol (String.append "BAJAJ-AUTO" ".BO")
     = remove_exchange_suffix ".BO" (String.append "BAJAJ-AUTO" ".BO").
Proof. exact (stem_of_dotless_ticker "BAJAJ-AUTO" eq_refl). Defined.

(** X4. When the provider returns a non-empty frame and the write
    succeeds, [download_single_stock] returns [True]; afterwards the file
    [save_path/<stem>.csv] holds that frame, whatever it held before, and
    every other file is as it was. *)
Theorem single_stock_saves_frame
    (env : Env) (self : StockDataDownloader) (symbol : string)
    (s e : Z) (save_path : string) (w : World) (data : DataFrame) :
  yf_download env (requests w) symbol s e (Some true) = Ret data ->
  df_empty data = false ->
  to_csv env (stock_filename save_path symbol) data = Ret tt ->
  exists w',
    download_single_stock env self symbol s e save_path w = (Ret true, w')
    /\ files w' !! stock_filename save_path symbol = Some data
    /\ (forall path, path <> stock_filename save_path symbol ->
                     files w' !! path = files w !! path)
    /\ written (trace w') = written (trace w) ++ [stock_filename save_path symbol].
Proof.
  intros Hfetch Hempty Hwrite.
  unfold download_single_stock, try_except_Exception, bind, logger, yf_download_call,
    df_to_csv.
  cbn [emit requests files trace]. rewrite Hfetch, Hempty. cbn [negb].
  fold (stock_filename save_path symbol). rewrite Hwrite.
  eexists. split; [reflexivity|]. cbn [emit files trace]. split; [apply lookup_insert_eq|].
  split; [intros path Hne; by apply lookup_insert_ne|].
  rewrite !written_app. cbn. by rewrite !app_nil_r.
Qed.

Lemma single_stock_saves_frame_witness :
  exists w',
    download_single_stock env_flaky sample_self "GOOD.NS" 0 10 "data/nifty50" empty_world
      = (Ret true, w')
    /\ files w' !! stock_filename "data/nifty50" "GOOD.NS" = Some (sample_frame 100)
    /\ (forall path, path <> stock_filename "data/nifty50" "GOOD.NS" ->
                     files w' !! path = files empty_world !! path)
    /\ written (trace w')
       = written (trace empty_world) ++ [stock_filename "data/nifty50" "GOOD.NS"].
Proof.
  exact (single_stock_saves_frame env_flaky sample_self "GOOD.NS" 0 10 "data/nifty50"
           empty_world (sample_frame 100) eq_refl eq_refl eq_refl).
Defined.





(** ** Further properties of a batch and of the index phase *)





(** X9. Whatever the collaborators do, [download_market_indices] never
    ends with an [Exception] and never sleeps; it requests the index
    symbols in the order of [indices_config], all three when it returns;
    and every file it writes is [<base>/<NAME>_index.csv] for one of the
    three names. *)
Theorem indices_phase_outcome
    (env : Env) (self : StockDataDownloader) (s e : Z) (w w' : World)
    (r : outcome unit) :
  download_market_indices env self s e w = (r, w') ->
  (forall msg, r <> Raise (Exception msg))
  /\ sleeps (trace w') = sleeps (trace w)
  /\ (exists n : nat,
        attempted (trace w')
        = attempted (trace w) ++ take n ["^NSEI"; "^BSESN"; "^NSEBANK"]
        /\ (r = Ret tt -> n = 3%nat))
  /\ exists paths,
       written (trace w') = written (trace w) ++ paths
       /\ dom (files w') = dom (files w) ∪ list_to_set paths
       /\ Forall (fun path =>
                    path ∈ [index_filename self "NIFTY50";
                            index_filename self "SENSEX";
                            index_filename self "BANKNIFTY"]) paths.
Proof.
  intros Hrun. apply download_market_indices_outcome in Hrun.
  destruct Hrun as (paths & n & Hpaths & _ & Hg & Hr).
  split.
  { intros msg ->. by destruct Hr as [Hex _]. }
  split.
  { rewrite (grows_sleeps _ _ _ _ Hg), sleeps_fetches. apply app_nil_r. }
  split.
  { exists n. split.
    - rewrite (grows_attempted _ _ _ _ Hg). f_equal.
      by destruct n as [|[|[|[|n]]]].
    - intros ->. exact Hr. }
  destruct Hg as (_ & _ & Hw & Hd & _).
  exists paths. split; [exact Hw|]. split; [exact Hd|].
  eapply Forall_impl; [exact Hpaths|]. intros path (entry & Hin & ->).
  unfold indices_config in Hin.
  repeat (apply elem_of_cons in Hin; destruct Hin as [->|Hin]); [set_solver..|].
  by apply elem_of_nil in Hin.
Qed.

Lemma indices_phase_outcome_witness :
  (forall msg, Ret tt <> Raise (Exception msg))
  /\ sleeps (trace (snd sample_indices)) = sleeps (trace empty_world)
  /\ (exists n : nat,
        attempted (trace (snd sample_indices))
        = attempted (trace empty_world) ++ take n ["^NSEI"; "^BSESN"; "^NSEBANK"]
        /\ (Ret tt = Ret tt -> n = 3%nat))
  /\ exists paths,
       written (trace (snd sample_indices)) = written (trace empty_world) ++ paths
       /\ dom (files (snd sample_indices)) = dom (files empty_world) ∪ list_to_set paths
       /\ Forall (fun path =>
                    path ∈ [index_filename sample_self "NIFTY50";
                            index_filename sample_self "SENSEX";
                            index_filename sample_self "BANKNIFTY"]) paths.
Proof.
  exact (indices_phase_outcome env_flaky sample_self 0 10 empty_world
           (snd sample_indices) (Ret tt) eq_refl).
Defined.

(** ** Further properties of the whole run *)

Lemma attempted_fetches (symbols : list string) :
  omap fetch_of (map Fetch symbols) = symbols.
Proof. induction symbols as [|x rest IH]; [done|]. cbn. by rewrite IH. Qed.

Lemma catalog_fails_excludes_live (env : Env) (df : DataFrame) (cells : list string) :
  catalog_fetch_fails env ->
  read_csv env nse_url = Ret df ->
  column_lookup "Symbol" (df_columns df) = Some cells ->
  False.
Proof.
  intros [[msg Hfail]|(df' & Hread' & Hnone)] Hread Hcol.
  - rewrite Hread in Hfail. discriminate.
  - rewrite Hread in Hread'. injection Hread' as <-. rewrite Hcol in Hnone. discriminate.
Qed.

Lemma dom_final_stats (start_date end_date : Z) (nifty sensex : Z * Z) :
  dom (final_stats start_date end_date nifty sensex) = list_to_set stats_keys.
Proof. unfold final_stats, stats_keys. rewrite !dom_insert_L, dom_empty_L. set_solver. Qed.

(** The sample run returns its stats; no evaluation of the run is needed. *)
Lemma sample_run_returns :
  run_full_download env_flaky sample_self 10 empty_world
  = (Ret sample_stats, snd sample_run).
Proof.
  assert (Hdays : Z.abs (10 * 365) <= Datetime.max_delta_days)
    by (vm_compute; discriminate).
  destruct (run_full_download_total env_flaky sample_self 10 empty_world
              env_flaky_provider env_flaky_storage env_flaky_catalog Hdays eq_refl)
    as (nifty & sensex & w' & Hrun).
  unfold sample_stats, sample_run. by rewrite Hrun.
Qed.

(** X10. Whenever [run_full_download] returns: the requests were the three
    indices, then the Nifty list, then the thirty Sensex symbols, with a
    pause of 500 ms after each stock and none after an index;
    [stats['nifty_total']] is the length of the Nifty list; and when the
    remote list could not be fetched that list is the fallback, which makes
    83 requests and 80 pauses. *)
Theorem full_run_schedule
    (env : Env) (self : StockDataDownloader) (years : Z) (w w' : World)
    (stats : gmap string py_value) :
  run_full_download env self years w = (Ret stats, w') ->
  exists nifty_stocks,
    stats !! "nifty_total" = Some (VInt (Z.of_nat (length nifty_stocks)))
    /\ schedule (trace w')
       = schedule (trace w)
         ++ [Fetch "^NSEI"; Fetch "^BSESN"; Fetch "^NSEBANK"]
         ++ paced nifty_stocks ++ paced sensex_constituents
    /\ requests w' = (requests w + (3 + length nifty_stocks + 30))%nat
    /\ sleeps (trace w') = sleeps (trace w) ++ repeat 500 (length nifty_stocks + 30)
    /\ (catalog_fetch_fails env ->
        nifty_stocks = _get_fallback_nifty50
        /\ requests w' = (requests w + 83)%nat
        /\ length (sleeps (trace w')) = (length (sleeps (trace w)) + 80)%nat).
Proof.
  intros Hrun. apply run_full_download_outcome in Hrun.
  destruct Hrun as (nifty_stocks & p_idx & p_nifty & p_sensex & Hsource & _ & _ & _
                    & _ & _ & _ & Hg & ->).
  assert (Hreq : requests w' = (requests w + (3 + length nifty_stocks + 30))%nat).
  { destruct Hg as (Hreq & _). rewrite Hreq, !omap_app, !attempted_paced, attempted_fetches.
    rewrite !length_app. cbn [length map indices_config sensex_constituents]. lia. }
  assert (Hsl : sleeps (trace w')
                = sleeps (trace w) ++ repeat 500 (length nifty_stocks + 30)).
  { rewrite (grows_sleeps _ _ _ _ Hg), !omap_app, !sleeps_paced, sleeps_fetches.
    cbn [app]. by rewrite repeat_app. }
  exists nifty_stocks.
  split; [apply final_stats_lookup|]. split; [apply Hg|]. split; [exact Hreq|].
  split; [exact Hsl|].
  intros Hfails.
  assert (Hfb : nifty_stocks = _get_fallback_nifty50).
  { destruct Hsource as [[_ ->]|(df & cells & Hread & Hcol & _)]; [done|].
    destruct (catalog_fails_excludes_live env df cells Hfails Hread Hcol). }
  split; [exact Hfb|]. rewrite Hreq, Hsl, Hfb, length_app, repeat_length.
  cbn [length _get_fallback_nifty50]. lia.
Qed.

Lemma full_run_schedule_witness :
  exists nifty_stocks,
    sample_stats !! "nifty_total" = Some (VInt (Z.of_nat (length nifty_stocks)))
    /\ schedule (trace (snd sample_run))
       = schedule (trace empty_world)
         ++ [Fetch "^NSEI"; Fetch "^BSESN"; Fetch "^NSEBANK"]
         ++ paced nifty_stocks ++ paced sensex_constituents
    /\ requests (snd sample_run)
       = (requests empty_world + (3 + length nifty_stocks + 30))%nat
    /\ sleeps (trace (snd sample_run))
       = sleeps (trace empty_world) ++ repeat 500 (length nifty_stocks + 30)
    /\ (catalog_fetch_fails env_flaky ->
        nifty_stocks = _get_fallback_nifty50
        /\ requests (snd sample_run) = (requests empty_world + 83)%nat
        /\ length (sleeps (trace (snd sample_run)))
           = (length (sleeps (trace empty_world)) + 80)%nat).
Proof.
  exact (full_run_schedule env_flaky sample_self 10 empty_world (snd sample_run)
           sample_stats sample_run_returns).
Defined.

(** X11. Whenever [run_full_download] returns, the stats have exactly the
    seven keys; [sensex_total] is 30; each success count lies between 0 and
    its total; and when the remote list could not be fetched
    [nifty_total] is 50. *)
Theorem stats_tallies
    (env : Env) (self : StockDataDownloader) (years : Z) (w w' : World)
    (stats : gmap string py_value) :
  run_full_download env self years w = (Ret stats, w') ->
  dom stats = list_to_set stats_keys
  /\ exists nifty_success nifty_total sensex_success,
       stats !! "nifty_success" = Some (VInt nifty_success)
       /\ stats !! "nifty_total" = Some (VInt nifty_total)
       /\ stats !! "sensex_success" = Some (VInt sensex_success)
       /\ stats !! "sensex_total" = Some (VInt 30)
       /\ 0 <= nifty_success <= nifty_total
       /\ 0 <= sensex_success <= 30
       /\ (catalog_fetch_fails env -> nifty_total = 50).
Proof.
  intros Hrun. apply run_full_download_outcome in Hrun.
  destruct Hrun as (nifty_stocks & p_idx & p_nifty & p_sensex & Hsource & _ & _ & _
                    & _ & Hl_nifty & Hl_sensex & _ & ->).
  split; [apply dom_final_stats|].
  destruct (final_stats_lookup (now env - years * 365 * Datetime.us_per_day) (now env)
              (Z.of_nat (length p_nifty), Z.of_nat (length nifty_stocks))
              (Z.of_nat (length p_sensex), Z.of_nat (length sensex_constituents)))
    as (_ & _ & _ & H4 & H5 & H6 & H7).
  cbn [fst snd] in H4, H5, H6, H7.
  eexists _, _, _. split; [exact H4|]. split; [exact H5|]. split; [exact H6|].
  split; [exact H7|]. split; [lia|].
  split; [cbn [length sensex_constituents] in Hl_sensex; lia|].
  intros Hfails.
  destruct Hsource as [[_ ->]|(df & cells & Hread & Hcol & _)]; [done|].
  destruct (catalog_fails_excludes_live env df cells Hfails Hread Hcol).
Qed.

Lemma stats_tallies_witness :
  dom sample_stats = list_to_set stats_keys
  /\ exists nifty_success nifty_total sensex_success,
       sample_stats !! "nifty_success" = Some (VInt nifty_success)
       /\ sample_stats !! "nifty_total" = Some (VInt nifty_total)
       /\ sample_stats !! "sensex_success" = Some (VInt sensex_success)
       /\ sample_stats !! "sensex_total" = Some (VInt 30)
       /\ 0 <= nifty_success <= nifty_total
       /\ 0 <= sensex_success <= 30
       /\ (catalog_fetch_fails env_flaky -> nifty_total = 50).
Proof.
  exact (stats_tallies env_flaky sample_self 10 empty_world (snd sample_run)
           sample_stats sample_run_returns).
Defined.



(** ** Further properties of the set-up, the dates, the summary and the script *)

Lemma dict_get_Ret_inv (d : gmap string py_value) (key : string) (v : py_value)
    (w w' : World) :
  dict_get d key w = (Ret v, w') -> d !! key = Some v.
Proof.
  unfold dict_get. destruct (d !! key) as [x|]; intros H; [|discriminate H].
  by injection H as -> _.
Qed.

Lemma date_of_Ret_inv (v : py_value) (dt : Z) (w w' : World) :
  date_of v w = (Ret dt, w') -> v = VDatetime dt.
Proof. destruct v; intros H; [discriminate H|]. by injection H as -> _. Qed.

(** X13. However the directory creation ends, the constructor requests
    nothing and writes no file.  When it returns, the three paths of the
    object are [base], [base/nifty50] and [base/sensex30] as [os.path.join]
    builds them and all three directories were created; when it raises, it
    raises what [os.makedirs] raised for one of the three. *)
Theorem init_outcome_directories
    (env : Env) (base : string) (w w' : World) (r : outcome StockDataDownloader) :
  __init__ env base w = (r, w') ->
  requests w' = requests w
  /\ files w' = files w
  /\ schedule (trace w') = schedule (trace w)
  /\ match r with
     | Ret self =>
         base_path self = base
         /\ nifty_path self = path_join base "nifty50"
         /\ sensex_path self = path_join base "sensex30"
         /\ Forall (fun dir => exists u, makedirs env dir = Ret u)
                   [base; path_join base "nifty50"; path_join base "sensex30"]
     | Raise ex =>
         exists dir,
           dir ∈ [base; path_join base "nifty50"; path_join base "sensex30"]
           /\ makedirs env dir = Raise ex
     end.
Proof.
  intros Hrun.
  pose proof (quiet_init env base w r w' Hrun) as Hq.
  apply grows_quiet_observations in Hq. destruct Hq as (Hreq & Hf & Hs & _).
  repeat (split; [done|]).
  apply init_outcome in Hrun. destruct r as [self|ex]; [|exact Hrun].
  destruct Hrun as [-> Hdirs]. done.
Qed.

Lemma init_outcome_directories_witness :
  requests (snd (__init__ env_readonly "data" empty_world)) = requests empty_world
  /\ files (snd (__init__ env_readonly "data" empty_world)) = files empty_world
  /\ schedule (trace (snd (__init__ env_readonly "data" empty_world)))
     = schedule (trace empty_world)
  /\ exists dir,
       dir ∈ ["data"; path_join "data" "nifty50"; path_join "data" "sensex30"]
       /\ makedirs env_readonly dir
          = Raise (Exception "PermissionError: [Errno 13] Permission denied: 'data'").
Proof.
  exact (init_outcome_directories env_readonly "data" empty_world
           (snd (__init__ env_readonly "data" empty_world))
           (Raise (Exception "PermissionError: [Errno 13] Permission denied: 'data'"))
           eq_refl).
Defined.

(** X14. When one of the directories [data], [data/nifty50],
    [data/sensex30] cannot be created, [main] raises before anything is
    downloaded: no request is issued and no file is written. *)
Theorem no_download_without_directories
    (env : Env) (w : World) (dir : string) (ex : py_exn) :
  dir ∈ ["data"; "data/nifty50"; "data/sensex30"] ->
  makedirs env dir = Raise ex ->
  exists ex' w',
    main env w = (Raise ex', w')
    /\ requests w' = requests w
    /\ attempted (trace w') = attempted (trace w)
    /\ files w' = files w
    /\ written (trace w') = written (trace w).
Proof.
  intros Hin Hfail. unfold main. unfold bind at 1.
  destruct (__init__ env "data" w) as [[self|ex'] w1] eqn:Hinit.
  - apply init_outcome in Hinit. destruct Hinit as [_ Hdirs].
    change [ "data"; path_join "data" "nifty50"; path_join "data" "sensex30" ]
      with [ "data"; "data/nifty50"; "data/sensex30" ] in Hdirs.
    destruct (proj1 (Forall_forall _ _) Hdirs dir Hin) as [u Hok].
    rewrite Hok in Hfail. discriminate.
  - pose proof (quiet_init env "data" w _ w1 Hinit) as Hq.
    apply grows_quiet_observations in Hq. destruct Hq as (Hreq & Hf & Hs & Hw).
    exists ex', w1. repeat split; try done. unfold attempted. by rewrite Hs.
Qed.

Lemma no_download_without_directories_witness :
  exists ex' w',
    main env_readonly empty_world = (Raise ex', w')
    /\ requests w' = requests empty_world
    /\ attempted (trace w') = attempted (trace empty_world)
    /\ files w' = files empty_world
    /\ written (trace w') = written (trace empty_world).
Proof.
  apply (no_download_without_directories env_readonly empty_world "data"
           (Exception "PermissionError: [Errno 13] Permission denied: 'data'")).
  - left.
  - reflexivity.
Defined.



(** X16. When [timedelta(days=years * 365)] overflows, or the start date
    falls outside the range of [datetime], [run_full_download] raises that
    [OverflowError] at once: nothing is logged, requested or written. *)
Theorem overflow_aborts_run
    (env : Env) (self : StockDataDownloader) (years : Z) (w : World) :
  (Z.abs (years * 365) <=? Datetime.max_delta_days)
  && Datetime.in_range (now env - years * 365 * Datetime.us_per_day) = false ->
  exists msg, run_full_download env self years w = (Raise (Exception msg), w).
Proof.
  intros Hover. unfold run_full_download. unfold bind at 1.
  destruct (date_range env years w) as [r w1] eqn:Hd.
  apply date_range_outcome in Hd. destruct Hd as [-> Hr].
  rewrite Hover in Hr. destruct Hr as [msg ->]. by exists msg.
Qed.

Lemma overflow_aborts_run_witness :
  exists msg,
    run_full_download env_flaky sample_self 3000 empty_world
    = (Raise (Exception msg), empty_world).
Proof. exact (overflow_aborts_run env_flaky sample_self 3000 empty_world eq_refl). Defined.

(** X17. A date range that is computed leaves the world as it is and spans
    [years * 365] days; [start_date <= end_date] holds exactly when
    [years >= 0], so a negative [years] gives a start after the end. *)
Theorem date_range_order
    (env : Env) (years : Z) (w w' : World) (start_date end_date : Z) :
  date_range env years w = (Ret (start_date, end_date), w') ->
  w' = w
  /\ end_date - start_date = years * 365 * Datetime.us_per_day
  /\ (start_date <= end_date <-> 0 <= years)
  /\ (start_date < end_date <-> 0 < years)
  /\ Datetime.in_range start_date = true.
Proof.
  intros Hd. pose proof (date_range_outcome _ _ _ _ _ Hd) as [_ Hr].
  apply date_range_inv in Hd. destruct Hd as [-> Heq]. injection Heq as -> ->.
  split; [done|]. unfold Datetime.us_per_day in *.
  split; [lia|]. split; [lia|]. split; [lia|].
  destruct (Z.abs (years * 365) <=? Datetime.max_delta_days); cbn [andb] in Hr.
  - destruct (Datetime.in_range (now env - years * 365 * 86400000000)); [done|].
    by destruct Hr.
  - by destruct Hr.
Qed.

Lemma date_range_order_witness :
  empty_world = empty_world
  /\ sample_now - (sample_now + 365 * Datetime.us_per_day)
     = -1 * 365 * Datetime.us_per_day
  /\ (sample_now + 365 * Datetime.us_per_day <= sample_now <-> 0 <= -1)
  /\ (sample_now + 365 * Datetime.us_per_day < sample_now <-> 0 < -1)
  /\ Datetime.in_range (sample_now + 365 * Datetime.us_per_day) = true.
Proof.
  exact (date_range_order env_flaky (-1) empty_world empty_world
           (sample_now + 365 * Datetime.us_per_day) sample_now eq_refl).
Defined.

(** X18. [_print_summary] returns exactly when the stats hold a
    [datetime] under ['start_date'] and under ['end_date'] and some value
    under each of the five counters; a missing key makes it raise. *)
Theorem print_summary_needs_every_key
    (self : StockDataDownloader) (stats : gmap string py_value) (w : World) :
  (exists w', _print_summary self stats w = (Ret tt, w'))
  <-> ((exists sd, stats !! "start_date" = Some (VDatetime sd))
       /\ (exists ed, stats !! "end_date" = Some (VDatetime ed))
       /\ Forall (fun key => is_Some (stats !! key))
                 ["indices_downloaded"; "nifty_success"; "nifty_total";
                  "sensex_success"; "sensex_total"]).
Proof.
  split.
  - intros [w' H]. unfold _print_summary in H. repeat inv_bind H.
    repeat match goal with
           | Hx : dict_get _ _ _ = _ |- _ => apply dict_get_Ret_inv in Hx
           | Hx : date_of _ _ = _ |- _ => apply date_of_Ret_inv in Hx; subst
           end.
    split; [eauto|]. split; [eauto|]. repeat constructor; eauto.
  - intros ([sd H1] & [ed H2] & HF).
    repeat (apply Forall_cons in HF; destruct HF as [[? ?] HF]).
    unfold _print_summary, dict_get.
    repeat match goal with Hx : stats !! _ = Some _ |- _ => rewrite Hx; clear Hx end.
    eexists. reflexivity.
Qed.
